(** * gh-user-status: the status client of [main.go], embedded and verified

    The program is a small command-line extension: it builds GraphQL
    queries and mutations, hands them to the external [gh] tool, decodes
    the JSON that comes back and prints a line.  This file embeds

    - the library functions the program relies on ([strings.Contains],
      [strings.Split], the [encoding/json] scanner and its decoder for
      strings, booleans, structs and maps, [time.Time.Add] and
      [time.Time.Format] at the layout the program uses);
    - the program's own functions ([gh], [ghWithInput], [runSet], [runGet],
      [runGetTeam], [runGetUser], [apiTeam], [apiStatus]) as terms of a
      small free monad whose operations are the program's contacts with the
      outside world (path lookup, process execution, the confirmation
      prompt, the clock, standard output);

    and then proves the properties of the specification about them.  Two
    things are taken as given: the emoji manager, which the repository
    defines in another file, and the decoding of the team response, whose
    target holds a slice.

    Conventions.  A Go [string] or [[]byte] is a Rocq [string], one [ascii]
    per byte.  A Go [int64] ([time.Duration]) is a [Z].  A Go
    [map[string]T] is a [gmap string T]; the nil map and the empty map read
    the same and the program only reads.  A Go [error] is a value of the
    inductive [error], [nil] is [None]. *)

Set Warnings "-register-all".
From Stdlib Require Import ZArith Ascii String List Lia Bool DecimalString.
From stdpp Require Import gmap strings list.
Import ListNotations.
Open Scope string_scope.
Open Scope Z_scope.

(** Appending to a string that starts with known bytes computes. *)
Arguments String.append !_ _ / : simpl nomatch.

(* ===================================================================== *)
(** * Part I: definitions *)
(* ===================================================================== *)

(** ** Bytes and text *)

Definition byte_val (c : ascii) : Z := Z.of_N (N_of_ascii c).

Definition byte_of (z : Z) : ascii := ascii_of_N (Z.to_N (z mod 256)).

(** The double quote, written by its code so that no literal of this file
    needs an escaped quote. *)
Definition dquote : ascii := "034"%char.
Definition newline : ascii := "010"%char.
Definition tab : ascii := "009"%char.

Definition str1 (c : ascii) : string := String c "".

(** [quoted s] is [s] between double quotes, as where a raw literal of the
    program has a [%s] between two quotes. *)
Definition quoted (s : string) : string := str1 dquote ++ s ++ str1 dquote.

(** JSON texts of examples are written with apostrophes in place of double
    quotes; [json_text] puts the double quotes back. *)
Fixpoint json_text (s : string) : string :=
  match s with
  | "" => ""
  | String c s' => String (if Ascii.eqb c "'" then dquote else c) (json_text s')
  end.

(** ** Package [strings] *)

Fixpoint strings_HasPrefix (s prefix : string) {struct prefix} : bool :=
  match prefix, s with
  | "", _ => true
  | String _ _, "" => false
  | String p prefix', String c s' => Ascii.eqb p c && strings_HasPrefix s' prefix'
  end.

(** [strings.Contains(s, substr)]: [substr] occurs in [s] at some offset. *)
Fixpoint strings_Contains (s substr : string) : bool :=
  strings_HasPrefix s substr ||
  match s with
  | "" => false
  | String _ s' => strings_Contains s' substr
  end.

(** [strings.Split(s, sep)] for a non-empty [sep]: the pieces of [s] between
    the occurrences of [sep], found left to right without overlap; there is
    one piece more than there are occurrences.  [skip] counts the bytes of a
    separator that was matched and remains to be passed over, [piece] is the
    piece being read.  The program calls [Split] with the literal ["/"] only;
    Go's treatment of the empty separator (one piece per UTF-8 sequence) is
    not needed and not rendered. *)
Fixpoint genSplit (sep : string) (skip : nat) (piece : string) (s : string)
  : list string :=
  match s with
  | "" => [piece]
  | String c s' =>
      match skip with
      | S k => genSplit sep k piece s'
      | O =>
          if strings_HasPrefix s sep
          then piece :: genSplit sep (String.length sep - 1) "" s'
          else genSplit sep O (piece ++ str1 c) s'
      end
  end.

Definition strings_Split (s sep : string) : list string := genSplit sep O "" s.

(** ** Errors *)

(** Go [error] values.  [fmt_Errorf before cause after] is
    [fmt.Errorf(before + "%w" + after, cause)]: it wraps [cause].  The errors
    of [encoding/json] keep the facts the decoder knows (what JSON value met
    what Go type); [foreign_error] is an error value made outside the
    program and its libraries' modelled parts: by [safeexec.LookPath], by
    [exec.Cmd.Run] or by [survey]. *)
Inductive error : Type :=
| errors_New (text : string)
| fmt_Errorf (before : string) (cause : error) (after : string)
| json_SyntaxError
| json_UnmarshalTypeError (Value : string) (Type_ : string)
| foreign_error (text : string).

(** ** Package [unicode/utf8] and [unicode/utf16], as far as [encoding/json]
    uses them *)

Definition RuneError : Z := 65533.

(** [utf8.DecodeRune]: the first rune of [p] and its width in bytes; an
    ill-formed or truncated sequence gives [(RuneError, 1)].  The ranges of
    the second byte are those of Go's [acceptRanges] table. *)
Definition utf8_DecodeRune (p : string) : Z * nat :=
  match p with
  | "" => (RuneError, 0%nat)
  | String c0 p1 =>
      let p0 := byte_val c0 in
      if p0 <? 128 then (p0, 1%nat)
      else if (p0 <? 194) || (244 <? p0) then (RuneError, 1%nat)
      else
        let sz := if p0 <? 224 then 2%nat else if p0 <? 240 then 3%nat else 4%nat in
        let '(lo, hi) :=
          if p0 =? 224 then (160, 191)
          else if p0 =? 237 then (128, 159)
          else if p0 =? 240 then (144, 191)
          else if p0 =? 244 then (128, 143)
          else (128, 191) in
        match p1 with
        | "" => (RuneError, 1%nat)
        | String c1 p2 =>
            let b1 := byte_val c1 in
            if (b1 <? lo) || (hi <? b1) then (RuneError, 1%nat)
            else if Nat.eqb sz 2 then
              (Z.lor (Z.shiftl (Z.land p0 31) 6) (Z.land b1 63), 2%nat)
            else
              match p2 with
              | "" => (RuneError, 1%nat)
              | String c2 p3 =>
                  let b2 := byte_val c2 in
                  if (b2 <? 128) || (191 <? b2) then (RuneError, 1%nat)
                  else if Nat.eqb sz 3 then
                    (Z.lor (Z.shiftl (Z.land p0 15) 12)
                       (Z.lor (Z.shiftl (Z.land b1 63) 6) (Z.land b2 63)), 3%nat)
                  else
                    match p3 with
                    | "" => (RuneError, 1%nat)
                    | String c3 _ =>
                        let b3 := byte_val c3 in
                        if (b3 <? 128) || (191 <? b3) then (RuneError, 1%nat)
                        else
                          (Z.lor (Z.shiftl (Z.land p0 7) 18)
                             (Z.lor (Z.shiftl (Z.land b1 63) 12)
                                (Z.lor (Z.shiftl (Z.land b2 63) 6) (Z.land b3 63))),
                           4%nat)
                    end
              end
        end
  end.

(** [utf8.EncodeRune] for a rune that is not negative: surrogates and runes
    past U+10FFFF are written as U+FFFD. *)
Definition utf8_EncodeRune (r : Z) : string :=
  let three (r : Z) :=
    String (byte_of (Z.lor 224 (Z.shiftr r 12)))
      (String (byte_of (Z.lor 128 (Z.land (Z.shiftr r 6) 63)))
         (String (byte_of (Z.lor 128 (Z.land r 63))) "")) in
  if r <=? 127 then str1 (byte_of r)
  else if r <=? 2047 then
    String (byte_of (Z.lor 192 (Z.shiftr r 6)))
      (String (byte_of (Z.lor 128 (Z.land r 63))) "")
  else if (1114111 <? r) || ((55296 <=? r) && (r <=? 57343)) then three RuneError
  else if r <=? 65535 then three r
  else
    String (byte_of (Z.lor 240 (Z.shiftr r 18)))
      (String (byte_of (Z.lor 128 (Z.land (Z.shiftr r 12) 63)))
         (String (byte_of (Z.lor 128 (Z.land (Z.shiftr r 6) 63)))
            (String (byte_of (Z.lor 128 (Z.land r 63))) ""))).

Definition utf16_IsSurrogate (r : Z) : bool := (55296 <=? r) && (r <? 57344).

Definition utf16_DecodeRune (r1 r2 : Z) : Z :=
  if (55296 <=? r1) && (r1 <? 56320) && (56320 <=? r2) && (r2 <? 57344)
  then Z.lor (Z.shiftl (r1 - 55296) 10) (r2 - 56320) + 65536
  else RuneError.

(** ** Package [encoding/json]: the text *)

Definition hex_val (c : ascii) : option Z :=
  let b := byte_val c in
  if (48 <=? b) && (b <=? 57) then Some (b - 48)
  else if (97 <=? b) && (b <=? 102) then Some (b - 97 + 10)
  else if (65 <=? b) && (b <=? 70) then Some (b - 65 + 10)
  else None.

(** [getu4]: the code unit of a [\uXXXX] escape at the head of [s], or [-1]. *)
Definition getu4 (s : string) : Z :=
  match s with
  | String "\" (String "u" (String a (String b (String c (String d _))))) =>
      match hex_val a, hex_val b, hex_val c, hex_val d with
      | Some x3, Some x2, Some x1, Some x0 => ((x3 * 16 + x2) * 16 + x1) * 16 + x0
      | _, _, _, _ => -1
      end
  | _ => -1
  end.

Fixpoint drop_bytes (n : nat) (s : string) : string :=
  match n, s with
  | O, _ => s
  | S n', String _ s' => drop_bytes n' s'
  | S _, "" => ""
  end.

(** One round of the loop of [unquoteBytes] at the head of a non-empty [s]:
    the bytes written and the number of bytes read, or [None] where Go
    returns [ok = false]. *)
Definition unquote_step (s : string) : option (string * nat) :=
  match s with
  | "" => None
  | String c s' =>
      if Ascii.eqb c "\" then
        match s' with
        | "" => None
        | String e _ =>
            if Ascii.eqb e dquote || Ascii.eqb e "\" || Ascii.eqb e "/" || Ascii.eqb e "'"
            then Some (str1 e, 2%nat)
            else if Ascii.eqb e "b" then Some (str1 "008"%char, 2%nat)
            else if Ascii.eqb e "f" then Some (str1 "012"%char, 2%nat)
            else if Ascii.eqb e "n" then Some (str1 "010"%char, 2%nat)
            else if Ascii.eqb e "r" then Some (str1 "013"%char, 2%nat)
            else if Ascii.eqb e "t" then Some (str1 "009"%char, 2%nat)
            else if Ascii.eqb e "u" then
              let rr := getu4 s in
              if rr <? 0 then None
              else if utf16_IsSurrogate rr then
                let dec := utf16_DecodeRune rr (getu4 (drop_bytes 6 s)) in
                if dec =? RuneError
                then Some (utf8_EncodeRune RuneError, 6%nat)
                else Some (utf8_EncodeRune dec, 12%nat)
              else Some (utf8_EncodeRune rr, 6%nat)
            else None
        end
      else if Ascii.eqb c dquote || (byte_val c <? 32) then None
      else if byte_val c <? 128 then Some (str1 c, 1%nat)
      else
        let '(rr, size) := utf8_DecodeRune s in
        Some (utf8_EncodeRune rr, size)
  end.

(** [unquoteBytes] on the bytes between the quotes of a string literal.
    [skip] counts the bytes already read by the round in progress. *)
Fixpoint unquote_from (skip : nat) (s : string) : option string :=
  match s with
  | "" => Some ""
  | String _ s' =>
      match skip with
      | S k => unquote_from k s'
      | O =>
          match unquote_step s with
          | None => None
          | Some (out, size) =>
              match unquote_from (size - 1) s' with
              | None => None
              | Some t => Some (out ++ t)
              end
          end
      end
  end.

Definition unquoteBytes (body : string) : option string := unquote_from 0 body.

(** A JSON value as the scanner delimits it.  A string is held unquoted, a
    number by its literal; the members of an object keep their order and
    their duplicates. *)
Inductive json : Type :=
| JNull
| JBool (b : bool)
| JNumber (literal : string)
| JString (s : string)
| JArray (elems : list json)
| JObject (members : list (string * json)).

(** The scanner of [scanner.go]: one step function per byte, a stack of
    parse states for the arrays and objects that are open.  Here each parse
    state also holds what was read of its array or object (last read
    first), and the states inside a literal hold its bytes, so that the scan
    that validates the text also delimits its values. *)
Inductive frame : Type :=
| parseArrayValue (elems : list json)
| parseObjectKey (members : list (string * json)) (key : option string)
| parseObjectValue (members : list (string * json)) (key : option string).

Inductive step_state : Type :=
| stateBeginValueOrEmpty
| stateBeginValue
| stateBeginStringOrEmpty
| stateBeginString
| stateEndValue
| stateEndTop
| stateInString (body : string)
| stateInStringEsc (body : string)
| stateInStringEscU (body : string) (digits : nat)
| stateNeg (lit : string)
| state1 (lit : string)
| state0 (lit : string)
| stateDot (lit : string)
| stateDot0 (lit : string)
| stateE (lit : string)
| stateESign (lit : string)
| stateE0 (lit : string)
| stateLiteral (expected : string) (v : json).

Record scanner : Type := mkScanner {
  step : step_state;
  parseState : list frame;
  topValue : option json
}.

Definition maxNestingDepth : Z := 10000.

Definition isSpace (c : ascii) : bool :=
  Ascii.eqb c " " || Ascii.eqb c tab || Ascii.eqb c "013"%char || Ascii.eqb c newline.

Definition isDigit (c : ascii) : bool := (48 <=? byte_val c) && (byte_val c <=? 57).

(** A value is complete: it becomes the top-level value, an element of the
    open array, the key of the open object or the value of its pending key. *)
Definition deliver (v : json) (ps : list frame) : option scanner :=
  match ps with
  | [] => Some (mkScanner stateEndValue [] (Some v))
  | parseArrayValue es :: r =>
      Some (mkScanner stateEndValue (parseArrayValue (v :: es) :: r) None)
  | parseObjectKey ms None :: r =>
      match v with
      | JString k => Some (mkScanner stateEndValue (parseObjectKey ms (Some k) :: r) None)
      | _ => None
      end
  | parseObjectValue ms (Some k) :: r =>
      Some (mkScanner stateEndValue (parseObjectValue ((k, v) :: ms) None :: r) None)
  | _ => None
  end.

Definition pushParseState (f : frame) (ps : list frame) (success : step_state)
  : option scanner :=
  if Z.of_nat (List.length (f :: ps)) <=? maxNestingDepth
  then Some (mkScanner success (f :: ps) None)
  else None.

Definition stateEndValue_step (ps : list frame) (top : option json) (c : ascii)
  : option scanner :=
  match ps with
  | [] => if isSpace c then Some (mkScanner stateEndTop [] top) else None
  | f :: r =>
      if isSpace c then Some (mkScanner stateEndValue ps top)
      else
        match f with
        | parseObjectKey ms (Some k) =>
            if Ascii.eqb c ":"
            then Some (mkScanner stateBeginValue (parseObjectValue ms (Some k) :: r) None)
            else None
        | parseObjectValue ms None =>
            if Ascii.eqb c ","
            then Some (mkScanner stateBeginString (parseObjectKey ms None :: r) None)
            else if Ascii.eqb c "}" then deliver (JObject (rev ms)) r
            else None
        | parseArrayValue es =>
            if Ascii.eqb c ","
            then Some (mkScanner stateBeginValue ps None)
            else if Ascii.eqb c "]" then deliver (JArray (rev es)) r
            else None
        | _ => None
        end
  end.

Definition stateBeginString_step (ps : list frame) (c : ascii) : option scanner :=
  if isSpace c then Some (mkScanner stateBeginString ps None)
  else if Ascii.eqb c dquote then Some (mkScanner (stateInString "") ps None)
  else None.

Definition stateBeginValue_step (ps : list frame) (c : ascii) : option scanner :=
  if isSpace c then Some (mkScanner stateBeginValue ps None)
  else if Ascii.eqb c "{" then pushParseState (parseObjectKey [] None) ps stateBeginStringOrEmpty
  else if Ascii.eqb c "[" then pushParseState (parseArrayValue []) ps stateBeginValueOrEmpty
  else if Ascii.eqb c dquote then Some (mkScanner (stateInString "") ps None)
  else if Ascii.eqb c "-" then Some (mkScanner (stateNeg "-") ps None)
  else if Ascii.eqb c "0" then Some (mkScanner (state0 "0") ps None)
  else if Ascii.eqb c "t" then Some (mkScanner (stateLiteral "rue" (JBool true)) ps None)
  else if Ascii.eqb c "f" then Some (mkScanner (stateLiteral "alse" (JBool false)) ps None)
  else if Ascii.eqb c "n" then Some (mkScanner (stateLiteral "ull" JNull) ps None)
  else if isDigit c then Some (mkScanner (state1 (str1 c)) ps None)
  else None.

(** The end of a number is found at the byte that follows it: the number is
    delivered and that byte is given to [stateEndValue]. *)
Definition end_number (lit : string) (ps : list frame) (c : ascii) : option scanner :=
  match deliver (JNumber lit) ps with
  | Some s => stateEndValue_step (parseState s) (topValue s) c
  | None => None
  end.

Definition state0_step (lit : string) (ps : list frame) (c : ascii) : option scanner :=
  if Ascii.eqb c "." then Some (mkScanner (stateDot (lit ++ str1 c)) ps None)
  else if Ascii.eqb c "e" || Ascii.eqb c "E" then Some (mkScanner (stateE (lit ++ str1 c)) ps None)
  else end_number lit ps c.

Definition stateESign_step (lit : string) (ps : list frame) (c : ascii) : option scanner :=
  if isDigit c then Some (mkScanner (stateE0 (lit ++ str1 c)) ps None) else None.

Definition scanner_step (s : scanner) (c : ascii) : option scanner :=
  let ps := parseState s in
  match step s with
  | stateBeginValueOrEmpty =>
      if isSpace c then Some s
      else if Ascii.eqb c "]" then stateEndValue_step ps (topValue s) c
      else stateBeginValue_step ps c
  | stateBeginValue => stateBeginValue_step ps c
  | stateBeginStringOrEmpty =>
      if isSpace c then Some s
      else if Ascii.eqb c "}" then
        match ps with
        | parseObjectKey ms None :: r =>
            stateEndValue_step (parseObjectValue ms None :: r) (topValue s) c
        | _ => None
        end
      else stateBeginString_step ps c
  | stateBeginString => stateBeginString_step ps c
  | stateEndValue => stateEndValue_step ps (topValue s) c
  | stateEndTop => if isSpace c then Some s else None
  | stateInString body =>
      if Ascii.eqb c dquote then
        match unquoteBytes body with
        | Some t => deliver (JString t) ps
        | None => None
        end
      else if Ascii.eqb c "\" then Some (mkScanner (stateInStringEsc (body ++ str1 c)) ps None)
      else if byte_val c <? 32 then None
      else Some (mkScanner (stateInString (body ++ str1 c)) ps None)
  | stateInStringEsc body =>
      if Ascii.eqb c "b" || Ascii.eqb c "f" || Ascii.eqb c "n" || Ascii.eqb c "r"
         || Ascii.eqb c "t" || Ascii.eqb c "\" || Ascii.eqb c "/" || Ascii.eqb c dquote
      then Some (mkScanner (stateInString (body ++ str1 c)) ps None)
      else if Ascii.eqb c "u" then Some (mkScanner (stateInStringEscU (body ++ str1 c) 0) ps None)
      else None
  | stateInStringEscU body n =>
      match hex_val c with
      | Some _ =>
          if Nat.eqb n 3
          then Some (mkScanner (stateInString (body ++ str1 c)) ps None)
          else Some (mkScanner (stateInStringEscU (body ++ str1 c) (S n)) ps None)
      | None => None
      end
  | stateNeg lit =>
      if Ascii.eqb c "0" then Some (mkScanner (state0 (lit ++ str1 c)) ps None)
      else if isDigit c then Some (mkScanner (state1 (lit ++ str1 c)) ps None)
      else None
  | state1 lit =>
      if isDigit c then Some (mkScanner (state1 (lit ++ str1 c)) ps None)
      else state0_step lit ps c
  | state0 lit => state0_step lit ps c
  | stateDot lit =>
      if isDigit c then Some (mkScanner (stateDot0 (lit ++ str1 c)) ps None) else None
  | stateDot0 lit =>
      if isDigit c then Some (mkScanner (stateDot0 (lit ++ str1 c)) ps None)
      else if Ascii.eqb c "e" || Ascii.eqb c "E" then Some (mkScanner (stateE (lit ++ str1 c)) ps None)
      else end_number lit ps c
  | stateE lit =>
      if Ascii.eqb c "+" || Ascii.eqb c "-" then Some (mkScanner (stateESign (lit ++ str1 c)) ps None)
      else stateESign_step lit ps c
  | stateESign lit => stateESign_step lit ps c
  | stateE0 lit =>
      if isDigit c then Some (mkScanner (stateE0 (lit ++ str1 c)) ps None)
      else end_number lit ps c
  | stateLiteral expected v =>
      match expected with
      | "" => None
      | String e rest =>
          if Ascii.eqb c e then
            match rest with
            | "" => deliver v ps
            | _ => Some (mkScanner (stateLiteral rest v) ps None)
            end
          else None
      end
  end.

Fixpoint scan (s : scanner) (data : string) : option scanner :=
  match data with
  | "" => Some s
  | String c data' =>
      match scanner_step s c with
      | Some s' => scan s' data'
      | None => None
      end
  end.

(** [checkValid] and the delimiting of the top-level value: all of [data] is
    scanned; at its end the scanner is fed one space, as [scanner.eof] does,
    which ends a number in progress; the text is valid when a top-level
    value is then complete. *)
Definition json_parse (data : string) : option json :=
  match scan (mkScanner stateBeginValue [] None) data with
  | Some s =>
      match topValue s with
      | Some v => Some v
      | None =>
          match scanner_step s " " with
          | Some s' => topValue s'
          | None => None
          end
      end
  | None => None
  end.

(** ** Package [encoding/json]: decoding into Go values *)

(** A decoder for the Go type [T] takes the JSON value and the value the
    target holds, and gives the value the target holds afterwards with the
    type errors met, in order.  As in [decode.go] a type error does not stop
    the decoding: the offending value is passed over, the first error is
    saved and returned at the end. *)
Definition decoder (T : Type) : Type := json -> T -> T * list error.

Definition json_kind (j : json) : string :=
  match j with
  | JNull => "null"
  | JBool _ => "bool"
  | JNumber _ => "number"
  | JString _ => "string"
  | JArray _ => "array"
  | JObject _ => "object"
  end.

(** [literalStore] and [array]/[object] on a target of kind [string]: a JSON
    string is stored, [null] leaves the target as it is, anything else is a
    type error. *)
Definition decode_string : decoder string := fun j cur =>
  match j with
  | JString s => (s, [])
  | JNull => (cur, [])
  | _ => (cur, [json_UnmarshalTypeError (json_kind j) "string"])
  end.

Definition decode_bool : decoder bool := fun j cur =>
  match j with
  | JBool b => (b, [])
  | JNull => (cur, [])
  | _ => (cur, [json_UnmarshalTypeError (json_kind j) "bool"])
  end.

(** [foldName]: ASCII letters are put in upper case and every other rune is
    replaced by the least rune of its case-folding orbit.  Two runes outside
    ASCII have an ASCII letter in their orbit: U+017F (long s) folds to [S]
    and U+212A (Kelvin sign) to [K].  Every other rune outside ASCII folds
    to a rune outside ASCII; it is kept as it is here, which changes nothing
    to whether the folded key equals the folded name of a field of this
    program, all of whose letters are ASCII. *)
Definition upper (c : ascii) : ascii :=
  if (97 <=? byte_val c) && (byte_val c <=? 122) then byte_of (byte_val c - 32) else c.

Fixpoint foldName_from (skip : nat) (s : string) : string :=
  match s with
  | "" => ""
  | String c s' =>
      match skip with
      | S k => foldName_from k s'
      | O =>
          if byte_val c <? 128 then String (upper c) (foldName_from 0 s')
          else
            let '(r, n) := utf8_DecodeRune s in
            (if r =? 383 then "S" else if r =? 8490 then "K" else utf8_EncodeRune r)
              ++ foldName_from (n - 1) s'
      end
  end.

Definition foldName (s : string) : string := foldName_from 0 s.

(** A field of a struct of type [S]: its name (none of the program's fields
    has a [json] tag) and the decoder of its type, lifted to the struct. *)
Record structField (S : Type) : Type := mkField {
  field_name : string;
  field_decode : json -> S -> S * list error
}.
Arguments mkField {S} _ _.
Arguments field_name {S} _.
Arguments field_decode {S} _.

Definition field_of {S T : Type} (name : string) (get : S -> T) (set : S -> T -> S)
    (dec : decoder T) : structField S :=
  mkField name (fun j s => let '(v, errs) := dec j (get s) in (set s v, errs)).

(** The field a key selects: the one of that very name, else the first one
    of the same folded name. *)
Definition find_field {S : Type} (fields : list (structField S)) (key : string)
  : option (structField S) :=
  match List.find (fun f => String.eqb (field_name f) key) fields with
  | Some f => Some f
  | None => List.find (fun f => String.eqb (foldName (field_name f)) (foldName key)) fields
  end.

Definition decode_member {S : Type} (fields : list (structField S))
    (acc : S * list error) (member : string * json) : S * list error :=
  match find_field fields member.1 with
  | Some f => let '(s, errs) := field_decode f member.2 acc.1 in (s, (acc.2 ++ errs)%list)
  | None => acc
  end.

(** [object] on a struct: each member is decoded into the field its key
    selects, in the order of the text, so that a repeated key decodes again
    into the same field; members that select no field are passed over.
    [null] leaves the struct as it is. *)
Definition decode_struct {S : Type} (type_name : string) (fields : list (structField S))
  : decoder S := fun j cur =>
  match j with
  | JObject members => fold_left (decode_member fields) members (cur, [])
  | JNull => (cur, [])
  | _ => (cur, [json_UnmarshalTypeError (json_kind j) type_name])
  end.

Definition decode_entry {T : Type} (zero : T) (dec : decoder T)
    (acc : gmap string T * list error) (member : string * json)
  : gmap string T * list error :=
  let '(v, errs) := dec member.2 zero in
  (<[member.1 := v]> acc.1, (acc.2 ++ errs)%list).

(** [object] on a [map[string]T]: each member is decoded into a fresh zero
    value of [T], which is then stored under the key, also when the member
    was [null] or of the wrong type; a repeated key replaces the entry.
    [null] sets the map to nil. *)
Definition decode_map {T : Type} (type_name : string) (zero : T) (dec : decoder T)
  : decoder (gmap string T) := fun j cur =>
  match j with
  | JObject members => fold_left (decode_entry zero dec) members (cur, [])
  | JNull => (∅, [])
  | _ => (cur, [json_UnmarshalTypeError (json_kind j) type_name])
  end.

(** [json.Unmarshal(data, &v)] with the decoder of the type of [v]: text
    that is not valid JSON is refused before anything is stored. *)
Definition json_Unmarshal {T : Type} (dec : decoder T) (data : string) (v : T)
  : T * option error :=
  match json_parse data with
  | None => (v, Some json_SyntaxError)
  | Some j => let '(v', errs) := dec j v in (v', head errs)
  end.

(** ** The program's data *)

Record setOptions : Type := mkSetOptions {
  setOptions_Message : string;
  setOptions_Limited : bool;
  setOptions_Expiry : Z;
  setOptions_Emoji : string;
  setOptions_OrgName : string
}.

Record getOptions : Type := mkGetOptions { getOptions_Login : string }.

Record status : Type := mkStatus {
  status_IndicatesLimitedAvailability : bool;
  status_Message : string;
  status_Emoji : string
}.

Record memberStatus : Type := mkMemberStatus {
  memberStatus_IndicatesLimitedAvailability : bool;
  memberStatus_Message : string;
  memberStatus_Emoji : string;
  memberStatus_User_Login : string
}.

Definition zero_status : status := mkStatus false "" "".

Definition status_field_limited : structField status :=
  field_of "IndicatesLimitedAvailability" status_IndicatesLimitedAvailability
    (fun s v => mkStatus v (status_Message s) (status_Emoji s)) decode_bool.

Definition status_field_message : structField status :=
  field_of "Message" status_Message
    (fun s v => mkStatus (status_IndicatesLimitedAvailability s) v (status_Emoji s))
    decode_string.

Definition status_field_emoji : structField status :=
  field_of "Emoji" status_Emoji
    (fun s v => mkStatus (status_IndicatesLimitedAvailability s) (status_Message s) v)
    decode_string.

Definition status_fields : list (structField status) :=
  [status_field_limited; status_field_message; status_field_emoji].

Definition decode_status : decoder status := decode_struct "main.status" status_fields.

(** The [response] type local to [runSet]: three structs of one field each,
    [Data], [ChangeUserStatus] and [Status]. *)
Record changeUserStatus_struct : Type := mkChangeUserStatus {
  ChangeUserStatus_Status : status
}.
Record data_struct : Type := mkData { Data_ChangeUserStatus : changeUserStatus_struct }.
Record setResponse : Type := mkSetResponse { setResponse_Data : data_struct }.

Definition zero_setResponse : setResponse :=
  mkSetResponse (mkData (mkChangeUserStatus zero_status)).

Definition decode_setResponse : decoder setResponse :=
  decode_struct "main.response"
    [ field_of "Data" setResponse_Data (fun _ v => mkSetResponse v)
        (decode_struct "struct { ChangeUserStatus struct { Status main.status } }"
           [ field_of "ChangeUserStatus" Data_ChangeUserStatus (fun _ v => mkData v)
               (decode_struct "struct { Status main.status }"
                  [ field_of "Status" ChangeUserStatus_Status
                      (fun _ v => mkChangeUserStatus v) decode_status ]) ]) ].

(** The target of [apiStatus]: [map[string]map[string]map[string]status]. *)
Definition decode_statusMaps : decoder (gmap string (gmap string (gmap string status))) :=
  decode_map "map[string]map[string]map[string]main.status" ∅
    (decode_map "map[string]map[string]main.status" ∅
       (decode_map "map[string]main.status" zero_status decode_status)).

(** ** Package [time] *)

(** A [time.Time]: an instant, as seconds since the Unix epoch and
    nanoseconds within the second, and a location, as the offset east of
    UTC, in seconds, that the location has at each instant.  Go counts the
    seconds in an [int64] that saturates; the instants of a system clock
    moved by an [int64] of nanoseconds stay far inside it, and the count is
    a [Z] here.  A [time.Duration] is an [int64] of nanoseconds. *)
Record Time : Type := mkTime {
  Time_sec : Z;
  Time_nsec : Z;
  Time_offset : Z -> Z
}.

(** [t.Add(d)]: [d] is split into seconds and nanoseconds by Go's truncating
    division, and the nanoseconds are carried into the seconds. *)
Definition Time_Add (t : Time) (d : Z) : Time :=
  let dsec := Z.quot d 1000000000 in
  let nsec := Time_nsec t + Z.rem d 1000000000 in
  if 1000000000 <=? nsec then
    mkTime (Time_sec t + (dsec + 1)) (nsec - 1000000000) (Time_offset t)
  else if nsec <? 0 then
    mkTime (Time_sec t + (dsec - 1)) (nsec + 1000000000) (Time_offset t)
  else mkTime (Time_sec t + dsec) nsec (Time_offset t).

(** Year, month and day of the proleptic Gregorian calendar from the number
    of days since 1 January 1970, by eras of 400 years counted from
    1 March. *)
Definition civil_from_days (days : Z) : Z * Z * Z :=
  let z := days + 719468 in
  let era := z / 146097 in
  let doe := z mod 146097 in
  let yoe := (doe - doe / 1460 + doe / 36524 - doe / 146096) / 365 in
  let doy := doe - (365 * yoe + yoe / 4 - yoe / 100) in
  let mp := (5 * doy + 2) / 153 in
  let d := doy - (153 * mp + 2) / 5 + 1 in
  let m := if mp <? 10 then mp + 3 else mp - 9 in
  let y := yoe + era * 400 + (if m <=? 2 then 1 else 0) in
  (y, m, d).

Definition digit (d : Z) : ascii := byte_of (48 + d).

(** The decimal digits of [u], at least [width] of them. *)
Fixpoint zero_pad (n : nat) (s : string) : string :=
  match n with
  | O => s
  | S n' => String "0" (zero_pad n' s)
  end.

Definition decimal (u : Z) : string :=
  DecimalString.NilZero.string_of_uint (N.to_uint (Z.to_N u)).

(** [appendInt(b, x, width)] of [format.go], as the bytes it appends: a minus
    sign for a negative [x], then its magnitude in decimal, padded with
    zeros on the left to [width] digits.  The two short cuts of the Go code
    for two and four digits are kept. *)
Definition appendInt (x : Z) (width : nat) : string :=
  let u := Z.abs x in
  (if x <? 0 then "-" else "") ++
  (if Nat.eqb width 2 && (u <? 100) then
     String (digit (u / 10)) (String (digit (u mod 10)) "")
   else if Nat.eqb width 4 && (u <? 10000) then
     String (digit (u / 1000)) (String (digit (u / 100 mod 10))
       (String (digit (u / 10 mod 10)) (String (digit (u mod 10)) "")))
   else
     let ds := decimal u in
     zero_pad (width - String.length ds) ds).

(** [t.Format("2006-01-02T15:04:05-0700")], the one layout of the program:
    the date and the clock are read off the instant moved by the zone
    offset in force; the zone is written as a sign, hours and minutes. *)
Definition Time_Format_2006_01_02T15_04_05_0700 (t : Time) : string :=
  let offset := Time_offset t (Time_sec t) in
  let abs := Time_sec t + offset in
  let '(year, month, day) := civil_from_days (abs / 86400) in
  let clock := abs mod 86400 in
  let zone := Z.quot offset 60 in
  appendInt year 4 ++ "-" ++ appendInt month 2 ++ "-" ++ appendInt day 2 ++ "T"
  ++ appendInt (clock / 3600) 2 ++ ":" ++ appendInt (clock mod 3600 / 60) 2 ++ ":"
  ++ appendInt (clock mod 60) 2
  ++ (if zone <? 0 then "-" else "+")
  ++ appendInt (Z.quot (Z.abs zone) 60) 2 ++ appendInt (Z.rem (Z.abs zone) 60) 2.

(** ** The outside world *)

(** What the program does to the world and what the world answers, one event
    per contact:
    - [safeexec.LookPath(file)] gives a path and an error;
    - [cmd.Run()] with both output streams captured in buffers gives what
      the process wrote on each and an error;
    - [cmd.Run()] with the three standard streams handed to the process
      gives an error;
    - [survey.AskOne] of a confirmation gives an answer or an error;
    - [time.Now()] gives the time;
    - [fmt.Println] writes a line. *)
Inductive Event : Type :=
| EvLookPath (file : string) (path : string) (err : option error)
| EvRun (name : string) (args : list string) (stdout stderr : string) (err : option error)
| EvRunInteractive (name : string) (args : list string) (err : option error)
| EvAskOne (message : string) (default : bool) (reply : bool + error)
| EvNow (t : Time)
| EvPrintln (line : string).

(** The world answers each contact from what has happened so far. *)
Record World : Type := mkWorld {
  world_LookPath : list Event -> string -> string * option error;
  world_Run : list Event -> string -> list string -> string * string * option error;
  world_RunInteractive : list Event -> string -> list string -> option error;
  world_AskOne : list Event -> string -> bool -> bool + error;
  world_Now : list Event -> Time
}.

(** Programs: a result, a run-time panic, or a contact with the world and
    what to do with its answer. *)
Inductive M (A : Type) : Type :=
| Ret (a : A)
| Panic (msg : string)
| LookPath (file : string) (k : string * option error -> M A)
| Run (name : string) (args : list string) (k : string * string * option error -> M A)
| RunInteractive (name : string) (args : list string) (k : option error -> M A)
| AskOne (message : string) (default : bool) (k : bool + error -> M A)
| Now (k : Time -> M A)
| Println (line : string) (k : M A).
Arguments Ret {A} _.
Arguments Panic {A} _.
Arguments LookPath {A} _ _.
Arguments Run {A} _ _ _.
Arguments RunInteractive {A} _ _ _.
Arguments AskOne {A} _ _ _.
Arguments Now {A} _.
Arguments Println {A} _ _.

Fixpoint bind {A B : Type} (m : M A) (f : A -> M B) : M B :=
  match m with
  | Ret a => f a
  | Panic msg => Panic msg
  | LookPath file k => LookPath file (fun r => bind (k r) f)
  | Run name args k => Run name args (fun r => bind (k r) f)
  | RunInteractive name args k => RunInteractive name args (fun r => bind (k r) f)
  | AskOne message default k => AskOne message default (fun r => bind (k r) f)
  | Now k => Now (fun r => bind (k r) f)
  | Println line k => Println line (bind k f)
  end.

#[export] Instance M_ret : MRet M := @Ret.
#[export] Instance M_bind : MBind M := fun A B f m => bind m f.

Inductive outcome (A : Type) : Type :=
| Returned (a : A)
| Panicked (msg : string).
Arguments Returned {A} _.
Arguments Panicked {A} _.

(** [exec w m past]: the run of [m] in the world [w] after the events
    [past]; its outcome and all the events, oldest first. *)
Fixpoint exec {A : Type} (w : World) (m : M A) (past : list Event)
  : outcome A * list Event :=
  match m with
  | Ret a => (Returned a, past)
  | Panic msg => (Panicked msg, past)
  | LookPath file k =>
      let r := world_LookPath w past file in
      exec w (k r) (past ++ [EvLookPath file r.1 r.2])%list
  | Run name args k =>
      let r := world_Run w past name args in
      exec w (k r) (past ++ [EvRun name args r.1.1 r.1.2 r.2])%list
  | RunInteractive name args k =>
      let r := world_RunInteractive w past name args in
      exec w (k r) (past ++ [EvRunInteractive name args r])%list
  | AskOne message default k =>
      let r := world_AskOne w past message default in
      exec w (k r) (past ++ [EvAskOne message default r])%list
  | Now k =>
      let r := world_Now w past in
      exec w (k r) (past ++ [EvNow r])%list
  | Println line k => exec w k (past ++ [EvPrintln line])%list
  end.

Definition run {A : Type} (w : World) (m : M A) : outcome A * list Event := exec w m [].

(** Readings of a trace. *)
Definition is_Run (e : Event) : bool :=
  match e with EvRun _ _ _ _ _ => true | _ => false end.

Definition is_RunInteractive (e : Event) : bool :=
  match e with EvRunInteractive _ _ _ => true | _ => false end.

Definition is_LookPath (e : Event) : bool :=
  match e with EvLookPath _ _ _ => true | _ => false end.

Definition is_AskOne (e : Event) : bool :=
  match e with EvAskOne _ _ _ => true | _ => false end.

(** What happened after the first event of a kind. *)
Fixpoint events_after (kind : Event -> bool) (tr : list Event) : list Event :=
  match tr with
  | [] => []
  | e :: tr' => if kind e then tr' else events_after kind tr'
  end.

(** The processes started, of either kind. *)
Definition processes (tr : list Event) : list Event :=
  List.filter (fun e => is_Run e || is_RunInteractive e) tr.

(** The argument vectors of the processes run with captured output. *)
Definition run_args (tr : list Event) : list (list string) :=
  flat_map (fun e => match e with EvRun _ args _ _ _ => [args] | _ => [] end) tr.

(** The contacts as programs. *)
Definition safeexec_LookPath (file : string) : M (string * option error) :=
  LookPath file Ret.
Definition exec_Run_captured (name : string) (args : list string)
  : M (string * string * option error) := Run name args Ret.
Definition exec_Run_attached (name : string) (args : list string) : M (option error) :=
  RunInteractive name args Ret.
Definition survey_AskOne_Confirm (message : string) (default : bool) : M (bool + error) :=
  AskOne message default Ret.
Definition time_Now : M Time := Now Ret.
Definition fmt_Println (line : string) : M unit := Println line (Ret tt).

(** ** The program *)

(** The lines of a raw literal, put together again. *)
Fixpoint unlines (ls : list string) : string :=
  match ls with
  | [] => ""
  | l :: ls' =>
      match ls' with
      | [] => l
      | _ :: _ => l ++ str1 newline ++ unlines ls'
      end
  end.

Fixpoint tabs (n : nat) : string :=
  match n with
  | O => ""
  | S n' => String tab (tabs n')
  end.

Fixpoint spaces (n : nat) : string :=
  match n with
  | O => ""
  | S n' => String " " (spaces n')
  end.

(** The raw literal [mutation] of [runSet], line by line. *)
Definition mutation : string :=
  unlines
    [ "mutation($emoji: String!, $message: String!, $limited: Boolean!, $expiry: DateTime) {";
      tabs 2 ++ "changeUserStatus(input: {emoji: $emoji, message: $message, limitedAvailability: $limited, expiresAt: $expiry}) {";
      tabs 3 ++ "status {";
      tabs 4 ++ "message";
      tabs 4 ++ "emoji";
      tabs 3 ++ "}";
      tabs 2 ++ "}";
      tabs 1 ++ "}" ].

(** The query of [apiTeam] with its two [%s] filled in. *)
Definition team_query (login slug : string) : string :=
  unlines
    [ "query {";
      spaces 6 ++ "organization(login:" ++ quoted login ++ ") {";
      spaces 8 ++ "team(slug:" ++ quoted slug ++ ") {";
      spaces 10 ++ "memberStatuses(first: 100) {";
      spaces 12 ++ "nodes { indicatesLimitedAvailability message emoji user { login } }";
      spaces 10 ++ "}";
      spaces 8 ++ "}";
      spaces 6 ++ "}";
      spaces 4 ++ "}" ].

(** The two queries of [apiStatus]. *)
Definition user_query (login : string) : string :=
  "query { user(login:" ++ quoted login
  ++ ") { status { indicatesLimitedAvailability message emoji }}}".

Definition viewer_query : string :=
  "query {viewer { status { indicatesLimitedAvailability message emoji }}}".

Definition scope_marker : string := "one of the following scopes: ['user']".

(** The emoji manager is made in a file of the repository that is not part
    of the sources at hand; the program uses one method of it. *)
Record emojiManager : Type := mkEmojiManager { ReplaceAll : string -> string }.

(** [gh] shells out to gh, returning STDOUT/STDERR and any error. *)
Definition gh (args : list string) : M (string * string * option error) :=
  '(ghBin, err) ← safeexec_LookPath "gh";
  match err with
  | Some e =>
      mret ("", "", Some (fmt_Errorf "could not find gh. Is it installed? error: " e ""))
  | None =>
      '(sout, eout, err) ← exec_Run_captured ghBin args;
      match err with
      | Some e =>
          mret (sout, eout,
                Some (fmt_Errorf "failed to run gh. error: " e (", stderr: " ++ eout)))
      | None => mret (sout, eout, None)
      end
  end.

(** [ghWithInput] shells out to gh, connecting IO handles for user input. *)
Definition ghWithInput (args : list string) : M (option error) :=
  '(ghBin, err) ← safeexec_LookPath "gh";
  match err with
  | Some e => mret (Some (fmt_Errorf "could not find gh. Is it installed? error: " e ""))
  | None =>
      err ← exec_Run_attached ghBin args;
      match err with
      | Some e => mret (Some (fmt_Errorf "failed to run gh. error: " e ""))
      | None => mret None
      end
  end.

Definition emoji_field (opts : setOptions) : string :=
  if String.eqb (setOptions_Emoji opts) "" then ""
  else ":" ++ setOptions_Emoji opts ++ ":".

Definition limited_field (opts : setOptions) : string :=
  if setOptions_Limited opts then "true" else "false".

Definition cmdArgs (opts : setOptions) (expiry : string) : list string :=
  [ "api"; "graphql";
    "-f"; "query=" ++ mutation;
    "-f"; "message=" ++ setOptions_Message opts;
    "-f"; "emoji=" ++ emoji_field opts;
    "-F"; "limited=" ++ limited_field opts;
    "-F"; "expiry=" ++ expiry ].

Definition auth_refresh_args : list string := ["auth"; "refresh"; "-s"; "user"].

(** The line of [runGetTeam] for one member, before the emojis are put in. *)
Definition member_line (n : memberStatus) : string :=
  let availability :=
    if memberStatus_IndicatesLimitedAvailability n
    then "(availability is limited)" else "" in
  memberStatus_User_Login n ++ ": " ++ memberStatus_Emoji n ++ " "
  ++ memberStatus_Message n ++ " " ++ availability.

Section Program.

(** [newEmojiManager()], from the emoji file of the repository. *)
Variable newEmojiManager : emojiManager.

(** [json.Unmarshal] at the [response] type local to [apiTeam], from a
    zero [resp], read at [resp.Data.Organization.Team.MemberStatuses.Nodes]:
    the decoded slice and the error.  No property proved here depends on
    how a slice is decoded. *)
Variable Unmarshal_teamResponse : string -> list memberStatus * option error.

(** [runSet] from the decoding of the response on: the code after the
    [if err != nil] block, which both the first call and the retry reach
    with their output. *)
Definition runSet_decode (opts : setOptions) (out : string) : M (option error) :=
  let em := newEmojiManager in
  let emoji := emoji_field opts in
  let '(resp, err) := json_Unmarshal decode_setResponse out zero_setResponse in
  match err with
  | Some e => mret (Some (fmt_Errorf "failed to deserialize JSON: " e ""))
  | None =>
      if negb (String.eqb
                 (status_Emoji (ChangeUserStatus_Status
                                  (Data_ChangeUserStatus (setResponse_Data resp))))
                 emoji)
      then mret (Some (errors_New "failed to set status. Perhaps try another emoji"))
      else
        let msg := "✓ Status set to " ++ emoji ++ " " ++ setOptions_Message opts in
        fmt_Println (ReplaceAll em msg);;
        mret None
  end.

(** [runSet] from the first call of [gh] on, with the argument vector just
    built. *)
Definition runSet_invoke (opts : setOptions) (cmdArgs : list string)
  : M (option error) :=
  '(out, stderr, err) ← gh cmdArgs;
  match err with
  | None => runSet_decode opts out
  | Some e =>
      if negb (strings_Contains stderr scope_marker) then mret (Some e)
      else
        fmt_Println "! Sorry, this extension requires the 'user' scope.";;
        reply ← survey_AskOne_Confirm "Would you like to add the user scope now?" true;
        match reply with
        | inr e => mret (Some (fmt_Errorf "could not prompt: " e ""))
        | inl answer =>
            if negb answer then mret None
            else
              err ← ghWithInput auth_refresh_args;
              match err with
              | Some e => mret (Some e)
              | None =>
                  '(out, _, err) ← gh cmdArgs;
                  match err with
                  | Some e => mret (Some e)
                  | None => runSet_decode opts out
                  end
              end
        end
  end.

Definition runSet (opts : setOptions) : M (option error) :=
  expiry ← (if 0 <? setOptions_Expiry opts
            then now ← time_Now;
                 mret (Time_Format_2006_01_02T15_04_05_0700
                         (Time_Add now (setOptions_Expiry opts)))
            else mret "null");
  runSet_invoke opts (cmdArgs opts expiry).

(** [clearCmd]: its [RunE] runs [runSet] on the options it was made with. *)
Definition clearCmd_opts : setOptions := mkSetOptions "" false 0 "" "".
Definition clearCmd_RunE : M (option error) := runSet clearCmd_opts.

Definition apiTeam (login slug : string) : M (option (list memberStatus) * option error) :=
  let login := if String.eqb login "" then "{owner}" else login in
  let query := team_query login slug in
  let args := ["api"; "graphql"; "-f"; "query=" ++ query] in
  '(sout, _, err) ← gh args;
  match err with
  | Some e => mret (None, Some e)
  | None =>
      let '(nodes, err) := Unmarshal_teamResponse sout in
      match err with
      | Some e => mret (None, Some (fmt_Errorf "failed to deserialize JSON: " e ""))
      | None => mret (Some nodes, None)
      end
  end.

Definition apiStatus (login : string) : M (option status * option error) :=
  let key := if String.eqb login "" then "viewer" else "user" in
  let query := if String.eqb login "" then viewer_query else user_query login in
  let args := ["api"; "graphql"; "-f"; "query=" ++ query] in
  '(sout, _, err) ← gh args;
  match err with
  | Some e => mret (None, Some e)
  | None =>
      let '(resp, err) := json_Unmarshal decode_statusMaps sout ∅ in
      match err with
      | Some e => mret (None, Some (fmt_Errorf "failed to deserialize JSON: " e ""))
      | None =>
          match default ∅ (default ∅ (resp !! "data") !! key) !! "status" with
          | Some s => mret (Some s, None)
          | None => mret (None, Some (errors_New "failed to deserialize JSON"))
          end
      end
  end.

(** The loop of [runGetTeam]: one line per node, in order. *)
Fixpoint print_members (em : emojiManager) (nodes : list memberStatus) : M unit :=
  match nodes with
  | [] => mret tt
  | n :: rest =>
      fmt_Println (ReplaceAll em (member_line n));;
      print_members em rest
  end.

Definition runGetTeam (opts : getOptions) : M (option error) :=
  let arr := strings_Split (getOptions_Login opts) "/" in
  match arr with
  | login :: slug :: _ =>
      '(nodes, err) ← apiTeam login slug;
      match err, nodes with
      | Some e, _ => mret (Some e)
      | None, Some nodes =>
          let em := newEmojiManager in
          print_members em nodes;;
          mret None
      | None, None => Panic "invalid memory address or nil pointer dereference"
      end
  | _ => Panic "index out of range"
  end.

Definition runGetUser (opts : getOptions) : M (option error) :=
  let em := newEmojiManager in
  '(s, err) ← apiStatus (getOptions_Login opts);
  match err, s with
  | Some e, _ => mret (Some e)
  | None, Some s =>
      let availability :=
        if status_IndicatesLimitedAvailability s
        then "(availability is limited)" else "" in
      let msg := status_Emoji s ++ " " ++ status_Message s ++ " " ++ availability in
      fmt_Println (ReplaceAll em msg);;
      mret None
  | None, None => Panic "invalid memory address or nil pointer dereference"
  end.

Definition runGet (opts : getOptions) : M (option error) :=
  if strings_Contains (getOptions_Login opts) "/"
  then runGetTeam opts
  else runGetUser opts.

End Program.

(** ** The words of the specification *)

(** "The login contains the separator character": the byte occurs in it. *)
Definition has_byte (c : ascii) (s : string) : Prop := In c (list_ascii_of_string s).

(** The member of an object that a reader of the document finds under [key]:
    the last one of that name, as for the entries of a decoded map. *)
Fixpoint last_member (key : string) (members : list (string * json)) : option json :=
  match members with
  | [] => None
  | (k, v) :: rest =>
      match last_member key rest with
      | Some v' => Some v'
      | None => if String.eqb k key then Some v else None
      end
  end.

Definition json_member (key : string) (j : json) : option json :=
  match j with
  | JObject members => last_member key members
  | _ => None
  end.

(** The value at the end of a path of keys, when every key of the path is
    present. *)
Fixpoint json_path (path : list string) (j : json) : option json :=
  match path with
  | [] => Some j
  | key :: path' =>
      match json_member key j with
      | Some v => json_path path' v
      | None => None
      end
  end.

(** A JSON value fits a Go type when decoding it meets no type error.  For
    the three types of the status lookup, written out on the document:
    - a string or a boolean field takes a value of its kind or [null];
    - a [status] takes [null] or an object, each of whose members either
      selects no field or fits the field it selects;
    - a map takes [null] or an object all of whose values fit the type of
      the map's elements. *)
Definition fits_string (j : json) : bool :=
  match j with JString _ | JNull => true | _ => false end.

Definition fits_bool (j : json) : bool :=
  match j with JBool _ | JNull => true | _ => false end.

Definition status_field_fits (member : string * json) : bool :=
  let folded := foldName member.1 in
  if String.eqb folded "INDICATESLIMITEDAVAILABILITY" then fits_bool member.2
  else if String.eqb folded "MESSAGE" || String.eqb folded "EMOJI" then fits_string member.2
  else true.

Definition fits_status (j : json) : bool :=
  match j with
  | JNull => true
  | JObject members => forallb status_field_fits members
  | _ => false
  end.

Definition fits_map (fits_elem : json -> bool) (j : json) : bool :=
  match j with
  | JNull => true
  | JObject members => forallb (fun member => fits_elem member.2) members
  | _ => false
  end.

Definition fits_statusMaps : json -> bool := fits_map (fits_map (fits_map fits_status)).

(** The decode errors of [apiStatus]: the one it makes itself and the one it
    wraps around an error of [json.Unmarshal]. *)
Definition decode_error (e : error) : Prop :=
  e = errors_New "failed to deserialize JSON"
  \/ exists cause, e = fmt_Errorf "failed to deserialize JSON: " cause "".

Definition VerificationFailed : error :=
  errors_New "failed to set status. Perhaps try another emoji".

(** The instant of a [Time] in nanoseconds since the Unix epoch. *)
Definition Time_instant (t : Time) : Z := Time_sec t * 1000000000 + Time_nsec t.

(** The number of days from 1 January 1970 to a date of the proleptic
    Gregorian calendar, counted the plain way: whole eras of 400 years,
    years of the era with their leap days, days of the year from 1 March. *)
Definition days_from_civil (y m d : Z) : Z :=
  let y' := if m <=? 2 then y - 1 else y in
  let era := y' / 400 in
  let yoe := y' mod 400 in
  let mp := if m <=? 2 then m + 9 else m - 3 in
  let doy := (153 * mp + 2) / 5 + d - 1 in
  let doe := yoe * 365 + yoe / 4 - yoe / 100 + doy in
  era * 146097 + doe - 719468.

Definition two_digits (a b : ascii) : option Z :=
  if isDigit a && isDigit b
  then Some ((byte_val a - 48) * 10 + (byte_val b - 48))
  else None.

(** What a reader makes of a text in the layout [2006-01-02T15:04:05-0700]:
    four digits of year, two of month, two of day, [T], the clock, a sign
    and four digits of zone; the Unix second it denotes is the local date
    and clock less the zone offset.  Any other text denotes nothing. *)
Definition read_timestamp (s : string) : option Z :=
  match list_ascii_of_string s with
  | [y1; y2; y3; y4; c1; m1; m2; c2; d1; d2; c3; h1; h2; c4; n1; n2; c5; s1; s2;
     sg; z1; z2; z3; z4] =>
      if Ascii.eqb c1 "-" && Ascii.eqb c2 "-" && Ascii.eqb c3 "T"
         && Ascii.eqb c4 ":" && Ascii.eqb c5 ":"
         && (Ascii.eqb sg "+" || Ascii.eqb sg "-")
      then
        match two_digits y1 y2, two_digits y3 y4, two_digits m1 m2, two_digits d1 d2,
              two_digits h1 h2, two_digits n1 n2, two_digits s1 s2,
              two_digits z1 z2, two_digits z3 z4 with
        | Some ya, Some yb, Some mo, Some da, Some ho, Some mi, Some se, Some zh, Some zm =>
            let offset := (if Ascii.eqb sg "-" then -1 else 1) * (zh * 3600 + zm * 60) in
            Some (days_from_civil (ya * 100 + yb) mo da * 86400
                  + ho * 3600 + mi * 60 + se - offset)
        | _, _, _, _, _, _, _, _, _ => None
        end
      else None
  | _ => None
  end.

(** ** Sample worlds *)

Definition plain_emojiManager : emojiManager := mkEmojiManager (fun s => s).

Definition no_nodes : string -> list memberStatus * option error := fun _ => ([], None).

Definition utc : Z -> Z := fun _ => 0.

(** A world in which [gh] is installed and every run of it succeeds and
    writes [out]; the clock shows 14 November 2023, 22:13:20 UTC. *)
Definition world_answering (out : string) : World :=
  mkWorld (fun _ _ => ("/usr/bin/gh", None))
          (fun _ _ _ => (out, "", None))
          (fun _ _ _ => None)
          (fun _ _ _ => inl true)
          (fun _ => mkTime 1700000000 0 utc).

(** A world in which the credential lacks the [user] scope: every run of
    [gh] with captured output fails and says so on standard error.  The
    person at the terminal answers [answer]; [gh auth refresh] ends with
    [refresh]. *)
Definition scope_stderr : string :=
  "gql: Your token has not been granted the required scopes to execute this query. "
  ++ "The 'changeUserStatus' field requires one of the following scopes: ['user'], "
  ++ "but your token has only been granted the: ['repo'] scopes.".

Definition world_without_scope (answer : bool) (refresh : option error) : World :=
  mkWorld (fun _ _ => ("/usr/bin/gh", None))
          (fun _ _ _ => ("", scope_stderr, Some (foreign_error "exit status 1")))
          (fun _ _ _ => refresh)
          (fun _ _ _ => inl answer)
          (fun _ => mkTime 1700000000 0 utc).

(** The same, with the scope granted by a successful [gh auth refresh]: the
    runs that come after an attached run succeed and write [out]. *)
Definition world_scope_granted (out : string) : World :=
  mkWorld (fun _ _ => ("/usr/bin/gh", None))
          (fun past _ _ =>
             if existsb is_RunInteractive past then (out, "", None)
             else ("", scope_stderr, Some (foreign_error "exit status 1")))
          (fun _ _ _ => None)
          (fun _ _ _ => inl true)
          (fun _ => mkTime 1700000000 0 utc).

(** A world without [gh]. *)
Definition world_without_gh : World :=
  mkWorld (fun _ _ => ("", Some (foreign_error "executable file not found in $PATH")))
          (fun _ _ _ => ("", "", None))
          (fun _ _ _ => None)
          (fun _ _ _ => inl true)
          (fun _ => mkTime 1700000000 0 utc).

(** A roster of exactly one hundred members, and a decoder that finds it in
    every response. *)
Definition hundred_members : list memberStatus :=
  repeat (mkMemberStatus false "on call" ":pager:" "hubot") 100.

Definition hundred_nodes : string -> list memberStatus * option error :=
  fun _ => (hundred_members, None).

(** A status that expires after thirty minutes. *)
Definition lunch_opts : setOptions := mkSetOptions "lunch" true 1800000000000 "bento" "".

Definition rocket_opts : setOptions := mkSetOptions "shipping" false 0 "rocket" "".

(** A response that echoes no emoji, as for an alias the platform does not
    know. *)
Definition blank_response : string :=
  json_text "{'data':{'changeUserStatus':{'status':{'message':'shipping','emoji':''}}}}".

Definition rocket_response : string :=
  json_text "{'data':{'changeUserStatus':{'status':{'message':'shipping','emoji':':rocket:'}}}}".

(** Responses to the status query: a status set, no status set (the
    platform answers [null]), no [status] key at all, a message of the wrong
    JSON type, and a document with both a [viewer] and a [user]. *)
Definition wave_response : string :=
  json_text ("{'data':{'user':{'status':{'indicatesLimitedAvailability':true,"
             ++ "'message':'on vacation','emoji':':palm_tree:'}}}}").

Definition null_status_response : string :=
  json_text "{'data':{'user':{'status':null}}}".

Definition no_status_response : string := json_text "{'data':{'user':{}}}".

Definition number_message_response : string :=
  json_text "{'data':{'user':{'status':{'message':5}}}}".

(** A status set, and next to [data] the [extensions] member with which the
    platform sends its warnings. *)
Definition extensions_response : string :=
  json_text ("{'data':{'user':{'status':{'message':'on vacation'}}},"
             ++ "'extensions':{'warnings':[]}}").


(** ** Further readings of a trace *)

(** The lines written on standard output, in order. *)
Definition printed (tr : list Event) : list string :=
  flat_map (fun e => match e with EvPrintln line => [line] | _ => [] end) tr.

Definition is_Now (e : Event) : bool :=
  match e with EvNow _ => true | _ => false end.

(** Every process of the trace runs the path that a lookup of [gh] has just
    found: the event before it is that lookup, without error, and the name
    of the process is its path.  [prev] is the event before [tr]. *)
Fixpoint runs_resolved (prev : option Event) (tr : list Event) : bool :=
  match tr with
  | [] => true
  | e :: tr' =>
      match e with
      | EvRun name _ _ _ _ | EvRunInteractive name _ _ =>
          match prev with
          | Some (EvLookPath file path None) => String.eqb file "gh" && String.eqb path name
          | _ => false
          end
      | _ => true
      end && runs_resolved (Some e) tr'
  end.

(** The line of [runSet] after a verified change, and the line of
    [runGetUser], before the emojis are put in. *)
Definition set_line (opts : setOptions) : string :=
  "✓ Status set to " ++ emoji_field opts ++ " " ++ setOptions_Message opts.

Definition status_line (s : status) : string :=
  status_Emoji s ++ " " ++ status_Message s ++ " "
  ++ (if status_IndicatesLimitedAvailability s then "(availability is limited)" else "").

Definition sorry_line : string := "! Sorry, this extension requires the 'user' scope.".

Definition confirm_question : string := "Would you like to add the user scope now?".

(** A world in which the run of [gh] fails for a reason other than the
    scope: the network is down. *)
Definition world_offline : World :=
  mkWorld (fun _ _ => ("/usr/bin/gh", None))
          (fun _ _ _ => ("", "error connecting to api.github.com",
                         Some (foreign_error "exit status 1")))
          (fun _ _ _ => None)
          (fun _ _ _ => inl true)
          (fun _ => mkTime 1700000000 0 utc).

(** A world without the scope in which the confirmation cannot be asked:
    there is no terminal. *)
Definition world_no_terminal : World :=
  mkWorld (fun _ _ => ("/usr/bin/gh", None))
          (fun _ _ _ => ("", scope_stderr, Some (foreign_error "exit status 1")))
          (fun _ _ _ => None)
          (fun _ _ _ => inr (foreign_error "EOF"))
          (fun _ => mkTime 1700000000 0 utc).

(** Two members of a team. *)
Definition two_members : list memberStatus :=
  [mkMemberStatus true "on call" ":pager:" "hubot";
   mkMemberStatus false "" "" "monalisa"].

Definition two_nodes : string -> list memberStatus * option error :=
  fun _ => (two_members, None).

(** What [apiStatus] makes of the output of the tool: the text is scanned,
    decoded into the three levels of maps, and the status is looked up under
    [data], [key] and [status]. *)
Definition read_status (key out : string) : option status * option error :=
  match json_parse out with
  | None => (None, Some (fmt_Errorf "failed to deserialize JSON: " json_SyntaxError ""))
  | Some j =>
      match head (decode_statusMaps j ∅).2 with
      | Some e => (None, Some (fmt_Errorf "failed to deserialize JSON: " e ""))
      | None =>
          match json_path ["data"; key; "status"] j with
          | Some v => (Some (decode_status v zero_status).1, None)
          | None => (None, Some (errors_New "failed to deserialize JSON"))
          end
      end
  end.


(** ** The commands *)

(** Modelled from the spec: an entry of the emoji table (the [emoji] struct
    of the emoji file of the repository, which is not among the sources
    read here).  The data model of the spec gives it the glyph, the aliases
    in order, the first one canonical, and a description; [prompt] reads
    these three fields. *)
Record emoji : Type := mkEmoji {
  emoji_codepoint : string;
  emoji_names : list string;
  emoji_desc : string
}.

(** The struct that [prompt] hands to [survey.Ask] to be filled in. *)
Record answers : Type := mkAnswers {
  answers_Status : string;
  answers_Emoji : Z;
  answers_Limited : bool;
  answers_Expiry : string
}.

Section Commands.

Variable newEmojiManager : emojiManager.
Variable Unmarshal_teamResponse : string -> list memberStatus * option error.

(** [em.Emojis()]: the table of the emoji manager. *)
Variable Emojis : list emoji.

(** [time.ParseDuration] of the Go library: the duration in nanoseconds and
    the error. *)
Variable time_ParseDuration : string -> Z * option error.

(** [prompt].  Its one interaction is [survey.Ask], whose outcome, the
    answers it has stored or its error, is [reply]; [opts] is passed by
    pointer in the source, and the options as [prompt] leaves them are
    returned with the error.  Indexing the table or the names of the chosen
    entry out of range panics. *)
Definition prompt (reply : answers + error) (opts : setOptions)
  : M (setOptions * option error) :=
  match reply with
  | inr e => mret (opts, Some e)
  | inl answers =>
      let expiry := answers_Expiry answers in
      let expiry := if String.eqb expiry "Never" then "0s" else expiry in
      let expiry := if String.eqb expiry "7d" then "168h" else expiry in
      let '(d, _) := time_ParseDuration expiry in
      if answers_Emoji answers <? 0 then Panic "index out of range"
      else
        match Emojis !! Z.to_nat (answers_Emoji answers) with
        | None => Panic "index out of range"
        | Some e =>
            match emoji_names e with
            | [] => Panic "index out of range"
            | name :: _ =>
                mret (mkSetOptions (answers_Status answers) (answers_Limited answers) d name
                        (setOptions_OrgName opts),
                      None)
            end
        end
  end.

(** [setCmd]: the options as the flags leave them when none is given, and
    its [RunE] on the options after the flags have been read. *)
Definition setCmd_flags : setOptions := mkSetOptions "" false 0 "thought_balloon" "".

Definition setCmd_RunE (opts : setOptions) (args : list string) (reply : answers + error)
  : M (option error) :=
  let opts :=
    match args with
    | arg :: _ =>
        mkSetOptions arg (setOptions_Limited opts) (setOptions_Expiry opts)
          (setOptions_Emoji opts) (setOptions_OrgName opts)
    | [] => opts
    end in
  let em := newEmojiManager in
  if String.eqb (setOptions_Message opts) "" then
    '(opts, err) ← prompt reply opts;
    match err with
    | Some e => mret (Some e)
    | None => runSet em opts
    end
  else runSet em opts.

(** [getCmd]: its [RunE]. *)
Definition getCmd_RunE (args : list string) : M (option error) :=
  let opts := mkGetOptions "" in
  let opts :=
    match args with
    | arg :: _ => mkGetOptions arg
    | [] => opts
    end in
  runGet newEmojiManager Unmarshal_teamResponse opts.

End Commands.

(** The text that [prompt] gives to [time.ParseDuration] for a choice of the
    expiry question. *)
Definition expiry_text (choice : string) : string :=
  if String.eqb choice "Never" then "0s"
  else if String.eqb choice "7d" then "168h"
  else choice.

(** A table of two emojis, and a [time.ParseDuration] that reads the texts
    which [prompt] makes of its six choices and refuses every other text. *)
Definition sample_Emojis : list emoji :=
  [mkEmoji "R" ["rocket"] "rocket"; mkEmoji "P" ["palm_tree"; "palm"] "palm tree"].

Definition sample_ParseDuration (s : string) : Z * option error :=
  if String.eqb s "0s" then (0, None)
  else if String.eqb s "30m" then (1800000000000, None)
  else if String.eqb s "1h" then (3600000000000, None)
  else if String.eqb s "4h" then (14400000000000, None)
  else if String.eqb s "24h" then (86400000000000, None)
  else if String.eqb s "168h" then (604800000000000, None)
  else (0, Some (errors_New ("time: invalid duration " ++ quoted s))).

Definition prompt_answers : answers := mkAnswers "in a meeting" 1 true "1h".

(* ===================================================================== *)
(** * Part II: properties *)
(* ===================================================================== *)

(** ** Text *)

Lemma append_nil_r (s : string) : s ++ "" = s.
Proof. induction s as [|c s IH]; simpl; [reflexivity | now rewrite IH]. Qed.

Lemma append_assoc (a b c : string) : (a ++ b) ++ c = a ++ (b ++ c).
Proof. induction a as [|x a IH]; simpl; [reflexivity | now rewrite IH]. Qed.

Lemma HasPrefix_byte (c : ascii) (s : string) :
  strings_HasPrefix s (str1 c) =
  match s with
  | "" => false
  | String d _ => Ascii.eqb c d
  end.
Proof. destruct s as [|d s]; simpl; [reflexivity | apply andb_true_r]. Qed.

(** [strings.Contains] with a separator of one byte finds the byte exactly
    when it occurs. *)
Lemma Contains_byte (c : ascii) (s : string) :
  strings_Contains s (str1 c) = true <-> has_byte c s.
Proof.
  unfold has_byte. induction s as [|d s IH].
  - simpl. split; [discriminate | tauto].
  - cbn [strings_Contains list_ascii_of_string]. rewrite HasPrefix_byte.
    rewrite orb_true_iff, IH, Ascii.eqb_eq. simpl. intuition congruence.
Qed.

Lemma Contains_byte_false (c : ascii) (s : string) :
  strings_Contains s (str1 c) = false <-> ~ has_byte c s.
Proof.
  rewrite <- Contains_byte. destruct (strings_Contains s (str1 c)); intuition congruence.
Qed.


Lemma genSplit_last (c : ascii) (a piece : string) :
  ~ has_byte c a -> genSplit (str1 c) 0 piece a = [piece ++ a].
Proof.
  revert piece. induction a as [|x a IH]; intros piece Ha.
  - simpl. now rewrite append_nil_r.
  - cbn [genSplit]. rewrite HasPrefix_byte.
    destruct (Ascii.eqb_spec c x) as [->|Hne].
    + exfalso. apply Ha. left. reflexivity.
    + rewrite IH.
      * now rewrite append_assoc.
      * intros H. apply Ha. right. exact H.
Qed.


Lemma genSplit_nonempty (sep : string) (skip : nat) (piece s : string) :
  genSplit sep skip piece s <> [].
Proof.
  revert skip piece. induction s as [|x s IH]; intros skip piece; cbn [genSplit].
  - discriminate.
  - destruct skip as [|k]; [|apply IH].
    destruct (strings_HasPrefix (String x s) sep); [discriminate | apply IH].
Qed.

(** [strings.Split] gives one piece more than there are separators: at least
    two pieces when the separator occurs. *)
Lemma Split_two_pieces (c : ascii) (s : string) :
  has_byte c s -> exists a b rest, strings_Split s (str1 c) = a :: b :: rest.
Proof.
  unfold strings_Split. generalize "" as piece.
  induction s as [|x s IH]; intros piece Hs.
  - destruct Hs.
  - cbn [genSplit]. rewrite HasPrefix_byte.
    destruct (Ascii.eqb_spec c x) as [->|Hne].
    + unfold str1 in *. cbn [String.length Nat.sub].
      destruct (genSplit (String x "") 0 "" s) as [|b rest] eqn:E.
      * exfalso. exact (genSplit_nonempty _ _ _ _ E).
      * exists piece, b, rest. reflexivity.
    + apply IH. destruct Hs as [Hs|Hs]; [congruence | exact Hs].
Qed.

(** ** Runs *)

Lemma exec_bind {A B : Type} (w : World) (m : M A) (f : A -> M B) (past : list Event) :
  exec w (bind m f) past =
  match exec w m past with
  | (Returned a, tr) => exec w (f a) tr
  | (Panicked msg, tr) => (Panicked msg, tr)
  end.
Proof.
  revert past. induction m as [a|msg|file k IH|name args k IH|name args k IH|q d k IH|k IH|line k IH];
    intros past; cbn [bind exec]; try reflexivity; try apply IH.
Qed.

(** A run only adds events. *)
Lemma exec_extends {A : Type} (w : World) (m : M A) (past : list Event) :
  exists added, (exec w m past).2 = (past ++ added)%list.
Proof.
  revert past. induction m as [a|msg|file k IH|name args k IH|name args k IH|q d k IH|k IH|line k IH];
    intros past; cbn [exec].
  1,2: exists []; simpl; now rewrite app_nil_r.
  all: cbv zeta;
    match goal with
    | IH : forall r past, _ |- context [exec _ (_ ?r) (?p ++ [?e])%list] =>
        destruct (IH r (p ++ [e])%list) as [added H]; exists (e :: added);
        rewrite H, <- app_assoc; reflexivity
    | IH : forall past, _ |- context [exec _ _ (?p ++ [?e])%list] =>
        destruct (IH (p ++ [e])%list) as [added H]; exists (e :: added);
        rewrite H, <- app_assoc; reflexivity
    end.
Qed.

(** The loop of [runGetTeam] writes its lines and does nothing else. *)
Lemma exec_print_members (w : World) (em : emojiManager) (nodes : list memberStatus)
    (past : list Event) :
  exec w (print_members em nodes) past
  = (Returned tt,
     (past ++ List.map (fun n => EvPrintln (ReplaceAll em (member_line n))) nodes)%list).
Proof.
  revert past. induction nodes as [|n nodes IH]; intros past.
  - simpl. now rewrite app_nil_r.
  - cbn [print_members]. unfold mbind, M_bind, fmt_Println. cbn [bind exec].
    rewrite IH. cbn [List.map]. now rewrite <- app_assoc.
Qed.

Lemma exec_mbind {A B : Type} (w : World) (m : M A) (f : A -> M B) (past : list Event) :
  exec w (m ≫= f) past =
  match exec w m past with
  | (Returned a, tr) => exec w (f a) tr
  | (Panicked msg, tr) => (Panicked msg, tr)
  end.
Proof. apply exec_bind. Qed.

(** The world is asked: case analysis on its answer. *)
Ltac ask_world :=
  match goal with
  | |- context [world_LookPath ?w ?h ?f] =>
      let p := fresh "path" in let e := fresh "lookErr" in let E := fresh "Look" in
      destruct (world_LookPath w h f) as [p [e|]] eqn:E
  | |- context [world_Run ?w ?h ?n ?a] =>
      let o := fresh "sout" in let eo := fresh "eout" in
      let e := fresh "runErr" in let E := fresh "Ran" in
      destruct (world_Run w h n a) as [[o eo] [e|]] eqn:E
  | |- context [world_RunInteractive ?w ?h ?n ?a] =>
      let e := fresh "authErr" in let E := fresh "Auth" in
      destruct (world_RunInteractive w h n a) as [e|] eqn:E
  | |- context [world_AskOne ?w ?h ?q ?d] =>
      let e := fresh "askErr" in let E := fresh "Asked" in
      destruct (world_AskOne w h q d) as [[|]|e] eqn:E
  end.

Ltac world_cases :=
  repeat (cbv zeta; cbn [app fst snd]; ask_world);
  cbv zeta; unfold mret, M_ret; cbn [app fst snd exec].

(** An event is in a trace that is known event by event. *)
Ltac in_trace H :=
  cbn [In] in H;
  repeat match type of H with
         | _ \/ _ => destruct H as [H|H]
         | False => destruct H
         end;
  try discriminate H.

(** [gh]: the lookup, then the run when the tool was found. *)
Lemma exec_gh (w : World) (args : list string) (past : list Event) :
  exec w (gh args) past =
  match world_LookPath w past "gh" with
  | (path, Some e) =>
      (Returned ("", "", Some (fmt_Errorf "could not find gh. Is it installed? error: " e "")),
       (past ++ [EvLookPath "gh" path (Some e)])%list)
  | (path, None) =>
      let looked := (past ++ [EvLookPath "gh" path None])%list in
      match world_Run w looked path args with
      | (sout, eout, Some e) =>
          (Returned (sout, eout,
                     Some (fmt_Errorf "failed to run gh. error: " e (", stderr: " ++ eout))),
           (looked ++ [EvRun path args sout eout (Some e)])%list)
      | (sout, eout, None) =>
          (Returned (sout, eout, None), (looked ++ [EvRun path args sout eout None])%list)
      end
  end.
Proof.
  unfold gh, safeexec_LookPath. rewrite exec_mbind. cbn [exec].
  destruct (world_LookPath w past "gh") as [path [e|]]; cbn [fst snd]; [reflexivity|].
  unfold exec_Run_captured. rewrite exec_mbind. cbn [exec].
  destruct (world_Run w _ path args) as [[sout eout] [e|]]; reflexivity.
Qed.

Lemma exec_ghWithInput (w : World) (args : list string) (past : list Event) :
  exec w (ghWithInput args) past =
  match world_LookPath w past "gh" with
  | (path, Some e) =>
      (Returned (Some (fmt_Errorf "could not find gh. Is it installed? error: " e "")),
       (past ++ [EvLookPath "gh" path (Some e)])%list)
  | (path, None) =>
      let looked := (past ++ [EvLookPath "gh" path None])%list in
      match world_RunInteractive w looked path args with
      | Some e =>
          (Returned (Some (fmt_Errorf "failed to run gh. error: " e "")),
           (looked ++ [EvRunInteractive path args (Some e)])%list)
      | None => (Returned None, (looked ++ [EvRunInteractive path args None])%list)
      end
  end.
Proof.
  unfold ghWithInput, safeexec_LookPath. rewrite exec_mbind. cbn [exec].
  destruct (world_LookPath w past "gh") as [path [e|]]; cbn [fst snd]; [reflexivity|].
  unfold exec_Run_attached. rewrite exec_mbind. cbn [exec].
  destruct (world_RunInteractive w _ path args) as [e|]; reflexivity.
Qed.

(** ** The get operation *)

(** C3. For every login passed to the get operation: if the login contains
    the separator character [/], the request goes to the team-roster lookup
    ([runGetTeam]); if it does not, it goes to the single-user lookup
    ([runGetUser]). *)
Theorem runGet_routes_on_separator (em : emojiManager)
    (U : string -> list memberStatus * option error) (opts : getOptions) :
  (has_byte "/" (getOptions_Login opts) -> runGet em U opts = runGetTeam em U opts)
  /\ (~ has_byte "/" (getOptions_Login opts) -> runGet em U opts = runGetUser em opts).
Proof.
  unfold runGet. change "/" with (str1 "/"). split; intros H.
  - apply Contains_byte in H. now rewrite H.
  - apply Contains_byte_false in H. now rewrite H.
Qed.

Lemma runGet_routes_on_separator_witness :
  runGet plain_emojiManager no_nodes (mkGetOptions "github/docs")
  = runGetTeam plain_emojiManager no_nodes (mkGetOptions "github/docs")
  /\ runGet plain_emojiManager no_nodes (mkGetOptions "octocat")
     = runGetUser plain_emojiManager (mkGetOptions "octocat").
Proof.
  split.
  - apply (proj1 (runGet_routes_on_separator plain_emojiManager no_nodes
                    (mkGetOptions "github/docs"))).
    vm_compute. tauto.
  - apply (proj2 (runGet_routes_on_separator plain_emojiManager no_nodes
                    (mkGetOptions "octocat"))).
    vm_compute. intuition discriminate.
Defined.



Lemma Contains_app_r (a b x : string) :
  strings_Contains b x = true -> strings_Contains (a ++ b) x = true.
Proof.
  intros H. induction a as [|d a IH]; [exact H|].
  cbn [append strings_Contains]. rewrite IH. apply orb_true_r.
Qed.

(** The query of [apiTeam] is a fixed text around the two names; the page
    size is in the fixed part. *)
Lemma team_query_shape (login slug : string) :
  team_query login slug
  = ("query {" ++ str1 newline ++ spaces 6 ++ "organization(login:" ++ str1 dquote)
    ++ login
    ++ (str1 dquote ++ ") {" ++ str1 newline ++ spaces 8 ++ "team(slug:" ++ str1 dquote)
    ++ slug
    ++ (str1 dquote ++ ") {" ++ str1 newline ++ spaces 10 ++ "memberStatuses(first: 100) {"
        ++ str1 newline ++ spaces 12
        ++ "nodes { indicatesLimitedAvailability message emoji user { login } }"
        ++ str1 newline ++ spaces 10 ++ "}" ++ str1 newline ++ spaces 8 ++ "}"
        ++ str1 newline ++ spaces 6 ++ "}" ++ str1 newline ++ spaces 4 ++ "}").
Proof.
  unfold team_query, quoted. cbn [unlines].
  repeat rewrite append_assoc. reflexivity.
Qed.

Lemma team_query_page_size (login slug : string) :
  strings_Contains (team_query login slug) "memberStatuses(first: 100)" = true.
Proof.
  rewrite team_query_shape.
  apply Contains_app_r, Contains_app_r, Contains_app_r, Contains_app_r.
  vm_compute. reflexivity.
Qed.

(** The run of [apiTeam], whatever the world: one lookup of the tool, one
    process when the tool was found, and the nodes decoded from its output. *)
Lemma run_apiTeam (U : string -> list memberStatus * option error) (w : World)
    (login slug : string) :
  run w (apiTeam U login slug) =
  let args := ["api"; "graphql"; "-f";
               "query=" ++ team_query (if String.eqb login "" then "{owner}" else login) slug] in
  match world_LookPath w [] "gh" with
  | (path, Some e) =>
      (Returned (None, Some (fmt_Errorf "could not find gh. Is it installed? error: " e "")),
       [EvLookPath "gh" path (Some e)])
  | (path, None) =>
      match world_Run w [EvLookPath "gh" path None] path args with
      | (sout, eout, Some e) =>
          (Returned (None, Some (fmt_Errorf "failed to run gh. error: " e
                                   (", stderr: " ++ eout))),
           [EvLookPath "gh" path None; EvRun path args sout eout (Some e)])
      | (sout, eout, None) =>
          (Returned match U sout with
                    | (nodes, None) => (Some nodes, None)
                    | (_, Some e) => (None, Some (fmt_Errorf "failed to deserialize JSON: " e ""))
                    end,
           [EvLookPath "gh" path None; EvRun path args sout eout None])
      end
  end.
Proof.
  unfold run, apiTeam. rewrite exec_mbind, exec_gh.
  world_cases; try reflexivity.
  destruct (U sout) as [nodes [e|]]; reflexivity.
Qed.



(** C8. The team-roster lookup ([apiTeam]) builds one query, which asks for
    at most the fixed page size of 100 member statuses
    ([memberStatuses(first: 100)]) and has no cursor, and calls the tool
    once: it looks [gh] up once and starts at most one process, exactly one
    when [gh] is found.  Nothing in the response makes it ask again: the
    nodes of that one response are what it returns, be they a hundred, and
    the events are the same whatever was decoded. *)
Theorem apiTeam_one_page_one_invocation
    (U : string -> list memberStatus * option error) (w : World) (login slug : string) :
  let res := (run w (apiTeam U login slug)).1 in
  let tr := (run w (apiTeam U login slug)).2 in
  List.length (List.filter is_LookPath tr) = 1%nat
  /\ (List.length (processes tr) <= 1)%nat
  /\ ((world_LookPath w [] "gh").2 = None -> List.length (processes tr) = 1%nat)
  /\ (forall name args out eout err,
        In (EvRun name args out eout err) tr ->
        processes tr = [EvRun name args out eout err]
        /\ exists org,
             args = ["api"; "graphql"; "-f"; "query=" ++ team_query org slug]
             /\ strings_Contains (team_query org slug) "memberStatuses(first: 100)" = true)
  /\ strings_Contains (team_query "" "") "after" = false
  /\ strings_Contains (team_query "" "") "pageInfo" = false
  /\ (forall name args out eout nodes,
        In (EvRun name args out eout None) tr ->
        U out = (nodes, None) ->
        res = Returned (Some nodes, None))
  /\ (forall U', (run w (apiTeam U' login slug)).2 = tr).
Proof.
  cbv zeta. rewrite run_apiTeam. cbv zeta.
  split; [|split; [|split; [|split; [|split; [|split; [|split]]]]]].
  - world_cases; reflexivity.
  - world_cases; cbn; lia.
  - world_cases; cbn; intros H; first [discriminate H | reflexivity].
  - intros name args out eout err. world_cases; cbn [In]; intros H;
      repeat (destruct H as [H|H]); try discriminate H; try contradiction H;
      injection H as <- <- <- <- <-;
      (split; [reflexivity | eexists; split; [reflexivity | apply team_query_page_size]]).
  - vm_compute. reflexivity.
  - vm_compute. reflexivity.
  - intros name args out eout nodes. world_cases; cbn [In]; intros H HU;
      repeat (destruct H as [H|H]); try discriminate H; try contradiction H.
    injection H as <- <- <- <-. now rewrite HU.
  - intros U'. rewrite run_apiTeam. cbv zeta. world_cases; reflexivity.
Qed.

Lemma apiTeam_one_page_one_invocation_witness :
  (run (world_answering "{}") (apiTeam hundred_nodes "github" "docs")).1
  = Returned (Some hundred_members, None)
  /\ List.length hundred_members = 100%nat
  /\ List.length (processes (run (world_answering "{}")
                               (apiTeam hundred_nodes "github" "docs")).2) = 1%nat.
Proof.
  destruct (apiTeam_one_page_one_invocation hundred_nodes (world_answering "{}")
              "github" "docs") as (_ & _ & Hfound & _ & _ & _ & Hnodes & _).
  split; [|split].
  - eapply (Hnodes "/usr/bin/gh" _ "{}" ""); [|reflexivity].
    vm_compute. right. left. reflexivity.
  - reflexivity.
  - apply Hfound. reflexivity.
Defined.




(** ** The set operation *)

(** The run of a program, one contact at a time: the binds are resolved,
    the world is asked, and the tests of [runSet] on what it reads are
    decided both ways. *)
Ltac run_step :=
  first
    [ rewrite exec_mbind
    | rewrite exec_gh
    | rewrite exec_ghWithInput
    | progress (cbv zeta;
                unfold mret, M_ret, fmt_Println, survey_AskOne_Confirm, time_Now;
                cbn [app fst snd exec negb])
    | progress (change (strings_Contains "" scope_marker) with false)
    | ask_world
    | match goal with
      | |- context [strings_Contains ?s scope_marker] =>
          let E := fresh "Marked" in destruct (strings_Contains s scope_marker) eqn:E
      | |- context [json_Unmarshal decode_setResponse ?out ?z] =>
          let resp := fresh "resp" in let e := fresh "decErr" in let E := fresh "Decoded" in
          destruct (json_Unmarshal decode_setResponse out z) as [resp [e|]] eqn:E
      | |- context [String.eqb (status_Emoji ?s) ?e] =>
          let E := fresh "Echo" in destruct (String.eqb (status_Emoji s) e) eqn:E
      end ].

Ltac run_program := repeat run_step.

(** [runSet] reads the clock first when an expiry is asked for, and then goes
    on with the argument vector. *)
Lemma run_runSet (em : emojiManager) (w : World) (opts : setOptions) :
  run w (runSet em opts) =
  if 0 <? setOptions_Expiry opts then
    let now := world_Now w [] in
    exec w (runSet_invoke em opts
              (cmdArgs opts (Time_Format_2006_01_02T15_04_05_0700
                               (Time_Add now (setOptions_Expiry opts)))))
      [EvNow now]
  else exec w (runSet_invoke em opts (cmdArgs opts "null")) [].
Proof.
  unfold run, runSet. rewrite exec_mbind.
  destruct (0 <? setOptions_Expiry opts).
  - unfold time_Now. rewrite exec_mbind. cbn [exec app]. reflexivity.
  - reflexivity.
Qed.

(** Every process that [runSet] runs with captured output gets the argument
    vector it was given: the retry repeats the first call. *)
Lemma runSet_invoke_args (em : emojiManager) (w : World) (opts : setOptions)
    (cmdArgs : list string) (past : list Event)
    (name : string) (args : list string) (out eout : string) (err : option error) :
  In (EvRun name args out eout err) (exec w (runSet_invoke em opts cmdArgs) past).2 ->
  In (EvRun name args out eout err) past \/ args = cmdArgs.
Proof.
  unfold runSet_invoke, runSet_decode. run_program; cbn [snd]; intros H;
    repeat (apply in_app_or in H as [H|H]; [|in_trace H]);
    first [ left; exact H | right; congruence ].
Qed.

Lemma runSet_args (em : emojiManager) (w : World) (opts : setOptions)
    (name : string) (args : list string) (out eout : string) (err : option error) :
  In (EvRun name args out eout err) (run w (runSet em opts)).2 ->
  args = cmdArgs opts
           (if 0 <? setOptions_Expiry opts
            then Time_Format_2006_01_02T15_04_05_0700
                   (Time_Add (world_Now w []) (setOptions_Expiry opts))
            else "null").
Proof.
  rewrite run_runSet. destruct (0 <? setOptions_Expiry opts); cbv zeta; intros H;
    apply runSet_invoke_args in H as [H|H]; first [exact H | in_trace H].
Qed.

(** C5. In the mutation that [runSet] hands to the tool, the emoji variable
    is passed as a string ([-f]) and its value is the alias between colons
    when the alias of the request is not empty (the alias [rocket] gives
    [:rocket:]), and the empty string when the alias is empty. *)
Theorem runSet_emoji_field (em : emojiManager) (w : World) (opts : setOptions)
    (name : string) (args : list string) (out eout : string) (err : option error) :
  In (EvRun name args out eout err) (run w (runSet em opts)).2 ->
  args !! 6%nat = Some "-f"
  /\ (setOptions_Emoji opts <> "" ->
      args !! 7%nat = Some ("emoji=" ++ ":" ++ setOptions_Emoji opts ++ ":"))
  /\ (setOptions_Emoji opts = "" -> args !! 7%nat = Some "emoji=")
  /\ (setOptions_Emoji opts = "rocket" -> args !! 7%nat = Some "emoji=:rocket:").
Proof.
  intros H. apply runSet_args in H. subst args. unfold cmdArgs, emoji_field.
  cbn [lookup list_lookup]. split; [reflexivity|].
  destruct (String.eqb_spec (setOptions_Emoji opts) "") as [E|E].
  - rewrite E. repeat split; intros H; first [reflexivity | congruence | discriminate H].
  - repeat split; intros H; first [reflexivity | congruence | now rewrite H].
Qed.

Lemma runSet_emoji_field_witness :
  In (EvRun "/usr/bin/gh" (cmdArgs rocket_opts "null") rocket_response "" None)
    (run (world_answering rocket_response) (runSet plain_emojiManager rocket_opts)).2
  /\ cmdArgs rocket_opts "null" !! 7%nat = Some "emoji=:rocket:"
  /\ cmdArgs clearCmd_opts "null" !! 7%nat = Some "emoji=".
Proof.
  assert (Hrocket : In (EvRun "/usr/bin/gh" (cmdArgs rocket_opts "null") rocket_response "" None)
                      (run (world_answering rocket_response)
                         (runSet plain_emojiManager rocket_opts)).2).
  { vm_compute. right. left. reflexivity. }
  assert (Hclear : In (EvRun "/usr/bin/gh" (cmdArgs clearCmd_opts "null") rocket_response "" None)
                     (run (world_answering rocket_response)
                        (runSet plain_emojiManager clearCmd_opts)).2).
  { vm_compute. right. left. reflexivity. }
  split; [exact Hrocket|]. split.
  - apply (runSet_emoji_field _ _ _ _ _ _ _ _ Hrocket). reflexivity.
  - apply (runSet_emoji_field _ _ _ _ _ _ _ _ Hclear). reflexivity.
Defined.

(** ** Time *)

(** [civil_from_days] inverts the plain count of days, and gives a month
    and a day of the month. *)
Lemma civil_from_days_inverse (days : Z) :
  let '(y, m, d) := civil_from_days days in
  days_from_civil y m d = days /\ 1 <= m <= 12 /\ 1 <= d <= 31.
Proof.
  unfold civil_from_days, days_from_civil. cbv zeta.
  set (z := days + 719468).
  assert (Hz : days = z - 719468) by (subst z; lia).
  clearbody z. subst days.
  set (era := z / 146097).
  set (doe := z mod 146097).
  assert (Hdoe : 0 <= doe < 146097) by (apply Z.mod_pos_bound; lia).
  assert (Hzd : z = era * 146097 + doe) by (subst era doe; Z.div_mod_to_equations; lia).
  clearbody doe era. subst z.
  set (yoe := (doe - doe / 1460 + doe / 36524 - doe / 146096) / 365).
  assert (Hyoe : 0 <= yoe <= 399 /\ 0 <= doe - (365 * yoe + yoe / 4 - yoe / 100) <= 365).
  { subst yoe. Z.div_mod_to_equations; lia. }
  clearbody yoe.
  set (doy := doe - (365 * yoe + yoe / 4 - yoe / 100)) in *.
  assert (Hd : doe = doy + (365 * yoe + yoe / 4 - yoe / 100)) by (subst doy; lia).
  clearbody doy. subst doe.
  set (mp := (5 * doy + 2) / 153).
  assert (Hmp : 0 <= mp <= 11) by (subst mp; Z.div_mod_to_equations; lia).
  assert (Hday : 1 <= doy - (153 * mp + 2) / 5 + 1 <= 31)
    by (subst mp; Z.div_mod_to_equations; lia).
  assert (Hdd : (153 * mp + 2) / 5 + (doy - (153 * mp + 2) / 5 + 1) - 1 = doy) by lia.
  destruct (mp <? 10) eqn:E; [apply Z.ltb_lt in E | apply Z.ltb_ge in E].
  - replace (mp + 3 <=? 2) with false by (symmetry; apply Z.leb_gt; lia).
    replace (mp + 3 - 3) with mp by lia. rewrite Hdd.
    replace (yoe + era * 400 + 0) with (yoe + era * 400) by lia.
    replace ((yoe + era * 400) / 400) with era by (Z.div_mod_to_equations; lia).
    replace ((yoe + era * 400) mod 400) with yoe by (Z.div_mod_to_equations; lia).
    lia.
  - replace (mp - 9 <=? 2) with true by (symmetry; apply Z.leb_le; lia).
    replace (mp - 9 + 9) with mp by lia. rewrite Hdd.
    replace (yoe + era * 400 + 1 - 1) with (yoe + era * 400) by lia.
    replace ((yoe + era * 400) / 400) with era by (Z.div_mod_to_equations; lia).
    replace ((yoe + era * 400) mod 400) with yoe by (Z.div_mod_to_equations; lia).
    lia.
Qed.

(** The days of the years 0 to 9999. *)
Lemma civil_from_days_year (days : Z) :
  -719528 <= days <= 2932896 ->
  0 <= (civil_from_days days).1.1 <= 9999.
Proof.
  intros H. unfold civil_from_days. cbv zeta. cbn [fst].
  set (z := days + 719468).
  assert (Hz : -60 <= z <= 3652364) by (subst z; lia). clearbody z. clear H days.
  set (era := z / 146097).
  set (doe := z mod 146097).
  assert (Hdoe : 0 <= doe < 146097) by (apply Z.mod_pos_bound; lia).
  assert (Hzd : z = era * 146097 + doe) by (subst era doe; Z.div_mod_to_equations; lia).
  clearbody doe era. subst z.
  set (yoe := (doe - doe / 1460 + doe / 36524 - doe / 146096) / 365).
  assert (Hyoe : 0 <= yoe <= 399 /\ 0 <= doe - (365 * yoe + yoe / 4 - yoe / 100) <= 365
                 /\ (146037 <= doe -> yoe = 399 /\ 306 <= doe - (365 * yoe + yoe / 4 - yoe / 100))
                 /\ (doe < 146037 -> yoe < 399 \/ doe - (365 * yoe + yoe / 4 - yoe / 100) < 306)).
  { subst yoe. Z.div_mod_to_equations; lia. }
  clearbody yoe.
  set (doy := doe - (365 * yoe + yoe / 4 - yoe / 100)) in *.
  clearbody doy.
  set (mp := (5 * doy + 2) / 153).
  assert (Hmp : 0 <= mp <= 11 /\ (306 <= doy <-> 10 <= mp)) by (subst mp; Z.div_mod_to_equations; lia).
  clearbody mp.
  destruct (mp <? 10) eqn:E; [apply Z.ltb_lt in E | apply Z.ltb_ge in E].
  - replace (mp + 3 <=? 2) with false by (symmetry; apply Z.leb_gt; lia). lia.
  - replace (mp - 9 <=? 2) with true by (symmetry; apply Z.leb_le; lia). lia.
Qed.

Lemma digit_spec (d : Z) :
  0 <= d <= 9 -> isDigit (digit d) = true /\ byte_val (digit d) - 48 = d.
Proof.
  intros H.
  assert (C : d = 0 \/ d = 1 \/ d = 2 \/ d = 3 \/ d = 4 \/ d = 5 \/ d = 6 \/ d = 7
              \/ d = 8 \/ d = 9) by lia.
  repeat (destruct C as [->|C]; [split; reflexivity|]). subst d. split; reflexivity.
Qed.

Lemma two_digits_digit (a b : Z) :
  0 <= a <= 9 -> 0 <= b <= 9 -> two_digits (digit a) (digit b) = Some (a * 10 + b).
Proof.
  intros Ha Hb. unfold two_digits.
  destruct (digit_spec a Ha) as [-> ->], (digit_spec b Hb) as [-> ->]. reflexivity.
Qed.

Lemma appendInt_2 (x : Z) :
  0 <= x < 100 -> appendInt x 2 = String (digit (x / 10)) (String (digit (x mod 10)) "").
Proof.
  intros H. unfold appendInt.
  replace (x <? 0) with false by (symmetry; apply Z.ltb_ge; lia).
  rewrite Z.abs_eq by lia.
  replace (x <? 100) with true by (symmetry; apply Z.ltb_lt; lia). reflexivity.
Qed.

Lemma appendInt_4 (x : Z) :
  0 <= x < 10000 ->
  appendInt x 4 = String (digit (x / 1000)) (String (digit (x / 100 mod 10))
                    (String (digit (x / 10 mod 10)) (String (digit (x mod 10)) ""))).
Proof.
  intros H. unfold appendInt.
  replace (x <? 0) with false by (symmetry; apply Z.ltb_ge; lia).
  rewrite Z.abs_eq by lia.
  replace (x <? 10000) with true by (symmetry; apply Z.ltb_lt; lia). reflexivity.
Qed.

Lemma Format_read (t : Time) :
  let offset := Time_offset t (Time_sec t) in
  -62167219200 <= Time_sec t + offset < 253402300800 ->
  -360000 < offset < 360000 ->
  offset mod 60 = 0 ->
  read_timestamp (Time_Format_2006_01_02T15_04_05_0700 t) = Some (Time_sec t).
Proof.
  intros offset Habs Hoff Hmin. unfold Time_Format_2006_01_02T15_04_05_0700.
  fold offset. cbv zeta.
  set (abs := Time_sec t + offset) in *.
  pose proof (civil_from_days_inverse (abs / 86400)) as Hciv.
  pose proof (civil_from_days_year (abs / 86400)) as Hyear.
  destruct (civil_from_days (abs / 86400)) as [[y m] d]. cbn [fst] in Hyear.
  destruct Hciv as (Hdays & Hm & Hd).
  assert (Hy : 0 <= y <= 9999) by (apply Hyear; Z.div_mod_to_equations; lia).
  set (clock := abs mod 86400).
  assert (Hclock : 0 <= clock < 86400) by (apply Z.mod_pos_bound; lia).
  set (zone := Z.quot offset 60).
  assert (Hzone : offset = 60 * zone /\ -6000 < zone < 6000).
  { subst zone. Z.div_mod_to_equations. Z.quot_rem_to_equations. lia. }
  rewrite (appendInt_4 y), (appendInt_2 m), (appendInt_2 d) by lia.
  rewrite (appendInt_2 (clock / 3600)), (appendInt_2 (clock mod 3600 / 60)),
    (appendInt_2 (clock mod 60)) by (Z.div_mod_to_equations; lia).
  rewrite (appendInt_2 (Z.quot (Z.abs zone) 60)), (appendInt_2 (Z.rem (Z.abs zone) 60))
    by (Z.quot_rem_to_equations; lia).
  assert (Ey : (y / 1000 * 10 + y / 100 mod 10) * 100 + (y / 10 mod 10 * 10 + y mod 10) = y)
    by (Z.div_mod_to_equations; lia).
  assert (Em : m / 10 * 10 + m mod 10 = m) by (Z.div_mod_to_equations; lia).
  assert (Ed : d / 10 * 10 + d mod 10 = d) by (Z.div_mod_to_equations; lia).
  assert (Eclock : clock / 3600 / 10 * 10 + clock / 3600 mod 10 = clock / 3600
                   /\ clock mod 3600 / 60 / 10 * 10 + clock mod 3600 / 60 mod 10
                      = clock mod 3600 / 60
                   /\ clock mod 60 / 10 * 10 + clock mod 60 mod 10 = clock mod 60
                   /\ clock / 3600 * 3600 + clock mod 3600 / 60 * 60 + clock mod 60 = clock)
    by (Z.div_mod_to_equations; lia).
  destruct Eclock as (Eh & Emi & Es & Ec).
  assert (Ezone : (Z.quot (Z.abs zone) 60 / 10 * 10 + Z.quot (Z.abs zone) 60 mod 10) * 3600
                  + (Z.rem (Z.abs zone) 60 / 10 * 10 + Z.rem (Z.abs zone) 60 mod 10) * 60
                  = Z.abs offset)
    by (Z.div_mod_to_equations; Z.quot_rem_to_equations; lia).
  assert (Eabs : abs / 86400 * 86400 + clock = abs)
    by (subst clock; Z.div_mod_to_equations; lia).
  destruct (zone <? 0) eqn:Ez; [apply Z.ltb_lt in Ez | apply Z.ltb_ge in Ez];
    unfold read_timestamp; cbn [append list_ascii_of_string];
    rewrite !two_digits_digit
      by (Z.div_mod_to_equations; Z.quot_rem_to_equations; lia);
    cbn [Ascii.eqb Bool.eqb andb orb]; cbv zeta;
    rewrite Ey, Em, Ed, Eh, Emi, Es, Hdays; f_equal; subst abs; lia.
Qed.

(** [Add] moves the instant by the duration, keeps the location, and keeps
    the nanoseconds within the second. *)
Lemma Time_Add_instant (t : Time) (d : Z) :
  Time_instant (Time_Add t d) = Time_instant t + d
  /\ Time_offset (Time_Add t d) = Time_offset t
  /\ (0 <= Time_nsec t < 1000000000 ->
      0 <= Time_nsec (Time_Add t d) < 1000000000
      /\ Time_sec (Time_Add t d) = (Time_instant t + d) / 1000000000).
Proof.
  unfold Time_Add, Time_instant. cbv zeta.
  pose proof (Z.quot_rem' d 1000000000) as Hd.
  assert (Hr : -1000000000 < Z.rem d 1000000000 < 1000000000)
    by (Z.quot_rem_to_equations; lia).
  generalize dependent (Z.quot d 1000000000). generalize dependent (Z.rem d 1000000000).
  intros r Hr q Hd.
  destruct (1000000000 <=? Time_nsec t + r) eqn:E1;
    [apply Z.leb_le in E1 | apply Z.leb_gt in E1;
     destruct (Time_nsec t + r <? 0) eqn:E2;
     [apply Z.ltb_lt in E2 | apply Z.ltb_ge in E2]];
    cbn [Time_sec Time_nsec Time_offset];
    (split; [lia | split; [reflexivity | intros Hn; split; [lia|]]]);
    Z.div_mod_to_equations; lia.
Qed.

(** [runSet] reads the clock at most once, before anything else. *)
Lemma runSet_invoke_no_Now (em : emojiManager) (w : World) (opts : setOptions)
    (cmdArgs : list string) (past : list Event) (t : Time) :
  In (EvNow t) (exec w (runSet_invoke em opts cmdArgs) past).2 -> In (EvNow t) past.
Proof.
  unfold runSet_invoke, runSet_decode. run_program; cbn [snd]; intros H;
    repeat (apply in_app_or in H as [H|H]; [|in_trace H]); exact H.
Qed.

Lemma runSet_invoke_head (em : emojiManager) (w : World) (opts : setOptions)
    (cmdArgs : list string) (e : Event) (past : list Event) :
  head (exec w (runSet_invoke em opts cmdArgs) (e :: past)).2 = Some e.
Proof.
  destruct (exec_extends w (runSet_invoke em opts cmdArgs) (e :: past)) as [added ->].
  reflexivity.
Qed.

(** C6. In the mutation that [runSet] hands to the tool, the expiry variable
    is passed as a typed value ([-F]).  Its value is [null] whenever the
    duration of the request is zero or negative, and the clock is then not
    read.  Whenever the duration is positive the clock is read first, and
    the value is the time read moved by the duration ([Add]), written in the
    layout [2006-01-02T15:04:05-0700]: the instant moved is the instant read
    plus the duration, and, for a date in the years 0 to 9999 and a zone of
    whole minutes, the text read back denotes that instant, to the second. *)
Theorem runSet_expiry_field (em : emojiManager) (w : World) (opts : setOptions)
    (name : string) (args : list string) (out eout : string) (err : option error) :
  let tr := (run w (runSet em opts)).2 in
  let d := setOptions_Expiry opts in
  In (EvRun name args out eout err) tr ->
  args !! 10%nat = Some "-F"
  /\ (d <= 0 -> args !! 11%nat = Some "expiry=null" /\ forall t, ~ In (EvNow t) tr)
  /\ (0 < d ->
      exists now,
        head tr = Some (EvNow now)
        /\ args !! 11%nat
           = Some ("expiry=" ++ Time_Format_2006_01_02T15_04_05_0700 (Time_Add now d))
        /\ Time_instant (Time_Add now d) = Time_instant now + d
        /\ (0 <= Time_nsec now < 1000000000 ->
            let later := Time_Add now d in
            let offset := Time_offset later (Time_sec later) in
            -62167219200 <= Time_sec later + offset < 253402300800 ->
            -360000 < offset < 360000 ->
            offset mod 60 = 0 ->
            read_timestamp (Time_Format_2006_01_02T15_04_05_0700 later)
            = Some ((Time_instant now + d) / 1000000000))).
Proof.
  cbv zeta. intros H. pose proof (runSet_args _ _ _ _ _ _ _ _ H) as Hargs.
  revert H. rewrite run_runSet.
  destruct (0 <? setOptions_Expiry opts) eqn:E;
    [apply Z.ltb_lt in E | apply Z.ltb_ge in E]; cbv zeta; intros H; subst args.
  - split; [reflexivity|]. split; [lia|]. intros _.
    exists (world_Now w []). split; [apply runSet_invoke_head|].
    split; [reflexivity|].
    destruct (Time_Add_instant (world_Now w []) (setOptions_Expiry opts))
      as (Hinst & _ & Hsec).
    split; [exact Hinst|]. intros Hn Habs Hoff Hmin.
    rewrite Format_read by assumption. f_equal. apply Hsec, Hn.
  - split; [reflexivity|]. split; [|lia]. intros _. split; [reflexivity|].
    intros t Ht. apply runSet_invoke_no_Now in Ht. destruct Ht.
Qed.

Lemma runSet_expiry_field_witness :
  (exists now,
      head (run (world_answering "{}") (runSet plain_emojiManager lunch_opts)).2
      = Some (EvNow now)
      /\ cmdArgs lunch_opts "2023-11-14T22:43:20+0000" !! 11%nat
         = Some ("expiry=" ++ Time_Format_2006_01_02T15_04_05_0700
                               (Time_Add now 1800000000000))
      /\ read_timestamp "2023-11-14T22:43:20+0000" = Some (1700000000 + 1800))
  /\ cmdArgs rocket_opts "null" !! 11%nat = Some "expiry=null".
Proof.
  assert (Hlunch : In (EvRun "/usr/bin/gh" (cmdArgs lunch_opts "2023-11-14T22:43:20+0000")
                         "{}" "" None)
                     (run (world_answering "{}") (runSet plain_emojiManager lunch_opts)).2).
  { vm_compute. right. right. left. reflexivity. }
  assert (Hrocket : In (EvRun "/usr/bin/gh" (cmdArgs rocket_opts "null") "{}" "" None)
                      (run (world_answering "{}") (runSet plain_emojiManager rocket_opts)).2).
  { vm_compute. right. left. reflexivity. }
  split.
  - destruct (runSet_expiry_field _ _ _ _ _ _ _ _ Hlunch) as (_ & _ & Hpos).
    destruct Hpos as (now & Hhead & Hfield & _ & Hread); [reflexivity|].
    exists now. split; [exact Hhead|]. split; [exact Hfield|].
    assert (Hnow : now = mkTime 1700000000 0 utc).
    { vm_compute in Hhead. injection Hhead as Hn. rewrite <- Hn. reflexivity. }
    subst now. apply Hread; vm_compute; repeat split; first [reflexivity | discriminate].
  - apply (runSet_expiry_field _ _ _ _ _ _ _ _ Hrocket). vm_compute. discriminate.
Defined.

(** When a run of the mutation succeeds, [runSet] ends on the decoding of
    its output and the comparison of the emoji echoed with the one sent. *)
Lemma runSet_invoke_verified (em : emojiManager) (w : World) (opts : setOptions)
    (cmdArgs : list string) (past : list Event)
    (name : string) (args : list string) (out eout : string) (resp : setResponse) :
  (forall n a o e r, ~ In (EvRun n a o e r) past) ->
  In (EvRun name args out eout None) (exec w (runSet_invoke em opts cmdArgs) past).2 ->
  json_Unmarshal decode_setResponse out zero_setResponse = (resp, None) ->
  (exec w (runSet_invoke em opts cmdArgs) past).1
  = Returned
      (if String.eqb
            (status_Emoji (ChangeUserStatus_Status
                             (Data_ChangeUserStatus (setResponse_Data resp))))
            (emoji_field opts)
       then None else Some VerificationFailed).
Proof.
  intros Hpast H HU.
  set (verdict := if String.eqb _ _ then None else Some VerificationFailed).
  revert H. unfold runSet_invoke, runSet_decode. run_program; cbn [fst snd]; intros H;
    repeat (apply in_app_or in H as [H|H]; [|in_trace H]);
    try (exfalso; exact (Hpast _ _ _ _ _ H));
    injection H as -> -> -> ->;
    match goal with
    | D : json_Unmarshal _ _ _ = _ |- _ =>
        rewrite HU in D; first [discriminate D | injection D as <-]
    end;
    subst verdict;
    match goal with
    | E : String.eqb _ _ = _ |- _ => rewrite E
    end; reflexivity.
Qed.

(** C2. For every run of [runSet] (so of the set and of the clear command)
    in which a call of the tool succeeds and its output decodes: if the emoji
    echoed in the decoded response differs from the emoji sent in the
    mutation, the operation fails with the verification error, although the
    process reported success; if the two are equal, the operation
    succeeds. *)
Theorem runSet_echo_verified (em : emojiManager) (w : World) (opts : setOptions)
    (name : string) (args : list string) (out eout sent : string) (resp : setResponse) :
  let res := (run w (runSet em opts)).1 in
  let echoed := status_Emoji (ChangeUserStatus_Status
                                (Data_ChangeUserStatus (setResponse_Data resp))) in
  In (EvRun name args out eout None) (run w (runSet em opts)).2 ->
  args !! 7%nat = Some ("emoji=" ++ sent) ->
  json_Unmarshal decode_setResponse out zero_setResponse = (resp, None) ->
  (echoed <> sent -> res = Returned (Some VerificationFailed))
  /\ (echoed = sent -> res = Returned None).
Proof.
  cbv zeta. intros H Hsent HU.
  pose proof (runSet_args _ _ _ _ _ _ _ _ H) as Hargs. rewrite Hargs in Hsent.
  cbn in Hsent. injection Hsent as Hsent. subst sent.
  assert (Hres : (run w (runSet em opts)).1
                 = Returned
                     (if String.eqb
                           (status_Emoji (ChangeUserStatus_Status
                              (Data_ChangeUserStatus (setResponse_Data resp))))
                           (emoji_field opts)
                      then None else Some VerificationFailed)).
  { revert H. rewrite run_runSet. destruct (0 <? setOptions_Expiry opts); cbv zeta;
      intros H; eapply runSet_invoke_verified; try eassumption;
      intros n a o e r Hin; in_trace Hin. }
  rewrite Hres.
  destruct (String.eqb_spec
              (status_Emoji (ChangeUserStatus_Status
                               (Data_ChangeUserStatus (setResponse_Data resp))))
              (emoji_field opts)); split; intros; first [reflexivity | contradiction].
Qed.

Lemma runSet_echo_verified_witness :
  (run (world_answering rocket_response) (runSet plain_emojiManager rocket_opts)).1
  = Returned None
  /\ (run (world_answering blank_response) (runSet plain_emojiManager rocket_opts)).1
     = Returned (Some VerificationFailed).
Proof.
  split.
  - destruct (runSet_echo_verified plain_emojiManager (world_answering rocket_response)
                rocket_opts "/usr/bin/gh" (cmdArgs rocket_opts "null") rocket_response ""
                ":rocket:"
                (mkSetResponse (mkData (mkChangeUserStatus
                                          (mkStatus false "shipping" ":rocket:")))))
      as [_ Hsame].
    + vm_compute. right. left. reflexivity.
    + reflexivity.
    + vm_compute. reflexivity.
    + apply Hsame. reflexivity.
  - destruct (runSet_echo_verified plain_emojiManager (world_answering blank_response)
                rocket_opts "/usr/bin/gh" (cmdArgs rocket_opts "null") blank_response ""
                ":rocket:"
                (mkSetResponse (mkData (mkChangeUserStatus (mkStatus false "shipping" "")))))
      as [Hdiffer _].
    + vm_compute. right. left. reflexivity.
    + reflexivity.
    + vm_compute. reflexivity.
    + apply Hdiffer. vm_compute. discriminate.
Defined.

(** C1, as the program has it.  For [runSet] (the set and the clear
    command), when the first run of the tool fails and its standard error
    holds the missing-scope marker, the failure is not returned: the person
    is asked for a confirmation.
    - If the person declines, [runSet] returns no error and starts no other
      process: the status is not changed.
    - If the person accepts, [gh] is looked up and [gh auth refresh -s user]
      is run attached to the terminal.  When [gh] is not found or that run
      fails, its error is returned and the mutation is not tried again.
      When it succeeds the mutation is tried again once, with the same
      argument vector; a failure of this retry is returned as the error and
      nothing else happens; after its success no process is started. *)
Theorem runSet_scope_recovery (em : emojiManager) (w : World) (opts : setOptions)
    (name : string) (args : list string) (out eout : string) (e : error) :
  let res := (run w (runSet em opts)).1 in
  let tr := (run w (runSet em opts)).2 in
  head (List.filter is_Run tr) = Some (EvRun name args out eout (Some e)) ->
  strings_Contains eout scope_marker = true ->
  (exists reply, In (EvAskOne "Would you like to add the user scope now?" true reply) tr)
  /\ (In (EvAskOne "Would you like to add the user scope now?" true (inl false)) tr ->
      res = Returned None /\ processes tr = [EvRun name args out eout (Some e)])
  /\ (In (EvAskOne "Would you like to add the user scope now?" true (inl true)) tr ->
      let asked := events_after is_AskOne tr in
      (exists p e', asked = [EvLookPath "gh" p (Some e')]
          /\ res = Returned (Some (fmt_Errorf "could not find gh. Is it installed? error: " e' "")))
      \/ (exists p e', asked = [EvLookPath "gh" p None; EvRunInteractive p auth_refresh_args (Some e')]
          /\ res = Returned (Some (fmt_Errorf "failed to run gh. error: " e' "")))
      \/ (exists p retry,
            asked = EvLookPath "gh" p None :: EvRunInteractive p auth_refresh_args None :: retry
            /\ ((exists p' e', retry = [EvLookPath "gh" p' (Some e')]
                  /\ res = Returned (Some (fmt_Errorf "could not find gh. Is it installed? error: " e' "")))
                \/ (exists p' out' eout' e',
                      retry = [EvLookPath "gh" p' None; EvRun p' args out' eout' (Some e')]
                      /\ res = Returned (Some (fmt_Errorf "failed to run gh. error: " e'
                                                 (", stderr: " ++ eout'))))
                \/ (exists p' out' eout' rest,
                      retry = EvLookPath "gh" p' None :: EvRun p' args out' eout' None :: rest
                      /\ processes rest = [])))).
Proof.
  cbv zeta. rewrite run_runSet.
  destruct (0 <? setOptions_Expiry opts); cbv zeta;
    unfold runSet_invoke, runSet_decode; run_program;
    cbn [fst snd List.filter is_Run head];
    intros Hfirst Hmark; try discriminate Hfirst;
    injection Hfirst as -> -> -> -> ->; try congruence.
  all: split; [eexists; cbn [In]; repeat (first [left; reflexivity | right]) |].
  all: split; [intros H; in_trace H; split; reflexivity |].
  all: intros H; in_trace H; cbn [events_after is_AskOne].
  all: first
         [ left; do 2 eexists; split; reflexivity
         | right; left; do 2 eexists; split; reflexivity
         | right; right; do 2 eexists; split; [reflexivity|];
           first [ left; do 2 eexists; split; reflexivity
                 | right; left; do 4 eexists; split; reflexivity
                 | right; right; do 4 eexists; split; reflexivity ] ].
Qed.

Lemma runSet_scope_recovery_witness :
  (run (world_without_scope false None) (runSet plain_emojiManager rocket_opts)).1
  = Returned None
  /\ processes (run (world_without_scope false None)
                  (runSet plain_emojiManager rocket_opts)).2
     = [EvRun "/usr/bin/gh" (cmdArgs rocket_opts "null") "" scope_stderr
          (Some (foreign_error "exit status 1"))]
  /\ run_args (run (world_scope_granted rocket_response)
                 (runSet plain_emojiManager rocket_opts)).2
     = [cmdArgs rocket_opts "null"; cmdArgs rocket_opts "null"].
Proof.
  destruct (runSet_scope_recovery plain_emojiManager (world_without_scope false None)
              rocket_opts "/usr/bin/gh" (cmdArgs rocket_opts "null") "" scope_stderr
              (foreign_error "exit status 1")) as (_ & Hdecline & _).
  { vm_compute. reflexivity. }
  { vm_compute. reflexivity. }
  destruct (runSet_scope_recovery plain_emojiManager (world_scope_granted rocket_response)
              rocket_opts "/usr/bin/gh" (cmdArgs rocket_opts "null") "" scope_stderr
              (foreign_error "exit status 1")) as (_ & _ & Haccept).
  { vm_compute. reflexivity. }
  { vm_compute. reflexivity. }
  destruct Hdecline as [Hres Hproc].
  { vm_compute. right. right. right. left. reflexivity. }
  split; [exact Hres|]. split; [exact Hproc|].
  destruct Haccept as [(p & e & H & _)|[(p & e & H & _)|(p & retry & H & _)]].
  { vm_compute. right. right. right. left. reflexivity. }
  - vm_compute in H. discriminate H.
  - vm_compute in H. discriminate H.
  - vm_compute. reflexivity.
Defined.

(** C1 as the specification states it does not hold: accepting does not
    always lead to a retry.  In a world where the credential lacks the scope,
    the person accepts and [gh auth refresh] fails, the mutation is run once
    in all and the error of the refresh is returned. *)
Lemma runSet_accept_without_retry :
  let r := run (world_without_scope true (Some (foreign_error "exit status 1")))
             (runSet plain_emojiManager rocket_opts) in
  head (List.filter is_Run r.2)
  = Some (EvRun "/usr/bin/gh" (cmdArgs rocket_opts "null") "" scope_stderr
            (Some (foreign_error "exit status 1")))
  /\ strings_Contains scope_stderr scope_marker = true
  /\ In (EvAskOne "Would you like to add the user scope now?" true (inl true)) r.2
  /\ run_args r.2 = [cmdArgs rocket_opts "null"]
  /\ r.1 = Returned (Some (fmt_Errorf "failed to run gh. error: "
                             (foreign_error "exit status 1") "")).
Proof.
  vm_compute. repeat split. right. right. right. left. reflexivity.
Qed.

(** ** Decoding *)

Section DecodeMap.
Context {T : Type} (zero : T) (dec : decoder T).

Lemma decode_entries_lookup (members : list (string * json))
    (m0 : gmap string T) (e0 : list error) (key : string) :
  (fold_left (decode_entry zero dec) members (m0, e0)).1 !! key
  = match last_member key members with
    | Some v => Some (dec v zero).1
    | None => m0 !! key
    end.
Proof.
  revert m0 e0. induction members as [|[k v] members IH]; intros m0 e0.
  - reflexivity.
  - cbn [fold_left last_member].
    assert (E : decode_entry zero dec (m0, e0) (k, v)
                = (<[k := (dec v zero).1]> m0, (e0 ++ (dec v zero).2)%list)).
    { unfold decode_entry. cbn [fst snd]. now destruct (dec v zero). }
    rewrite E, IH.
    destruct (last_member key members) as [v'|]; [reflexivity|].
    destruct (String.eqb_spec k key) as [->|Hne].
    + apply lookup_insert_eq.
    + now apply lookup_insert_ne.
Qed.

Lemma decode_entries_errors (members : list (string * json))
    (m0 : gmap string T) (e0 : list error) :
  (fold_left (decode_entry zero dec) members (m0, e0)).2
  = (e0 ++ flat_map (fun member => (dec member.2 zero).2) members)%list.
Proof.
  revert m0 e0. induction members as [|[k v] members IH]; intros m0 e0.
  - cbn. now rewrite app_nil_r.
  - cbn [fold_left flat_map].
    assert (E : decode_entry zero dec (m0, e0) (k, v)
                = (<[k := (dec v zero).1]> m0, (e0 ++ (dec v zero).2)%list)).
    { unfold decode_entry. cbn [fst snd]. now destruct (dec v zero). }
    rewrite E, IH. cbn [snd]. now rewrite <- app_assoc.
Qed.

Context (fits_elem : json -> bool).
Hypothesis dec_fits : forall v, (dec v zero).2 = [] <-> fits_elem v = true.

Lemma decode_map_fits (type_name : string) (j : json) (cur : gmap string T) :
  (decode_map type_name zero dec j cur).2 = [] <-> fits_map fits_elem j = true.
Proof.
  destruct j as [| | | | |members]; cbn [decode_map fits_map snd];
    try (split; [discriminate | discriminate]); try tauto.
  rewrite decode_entries_errors. cbn [app].
  induction members as [|[k v] members IH]; cbn [flat_map forallb]; [tauto|].
  rewrite andb_true_iff, <- IH, <- dec_fits. cbn [snd].
  split.
  - intros H. apply app_eq_nil in H. exact H.
  - intros [-> ->]. reflexivity.
Qed.

(** The entry of the decoded map under a key is the decoding of the last
    member of that name. *)
Lemma decode_map_lookup (type_name : string) (j : json) (key : string) :
  (decode_map type_name zero dec j ∅).1 !! key
  = match json_member key j with
    | Some v => Some (dec v zero).1
    | None => None
    end.
Proof.
  destruct j as [| | | | |members]; cbn [decode_map json_member fst];
    try apply lookup_empty.
  rewrite decode_entries_lookup. destruct (last_member key members); [reflexivity|].
  apply lookup_empty.
Qed.
End DecodeMap.

Lemma decode_bool_fits (j : json) (cur : bool) :
  (decode_bool j cur).2 = [] <-> fits_bool j = true.
Proof. destruct j; cbn; split; intros H; first [reflexivity | discriminate H]. Qed.

Lemma decode_string_fits (j : json) (cur : string) :
  (decode_string j cur).2 = [] <-> fits_string j = true.
Proof. destruct j; cbn; split; intros H; first [reflexivity | discriminate H]. Qed.

Lemma foldName_status_fields :
  foldName "IndicatesLimitedAvailability" = "INDICATESLIMITEDAVAILABILITY"
  /\ foldName "Message" = "MESSAGE" /\ foldName "Emoji" = "EMOJI".
Proof. vm_compute. repeat split. Qed.

Lemma field_of_errors {S T : Type} (name : string) (get : S -> T) (set : S -> T -> S)
    (dec : decoder T) (j : json) (s : S) :
  (field_decode (field_of name get set dec) j s).2 = (dec j (get s)).2.
Proof. cbn. now destruct (dec j (get s)). Qed.

Lemma decode_member_eq {S : Type} (fields : list (structField S))
    (acc : S * list error) (member : string * json) :
  decode_member fields acc member
  = match find_field fields member.1 with
    | Some f => ((field_decode f member.2 acc.1).1,
                 (acc.2 ++ (field_decode f member.2 acc.1).2)%list)
    | None => (acc.1, (acc.2 ++ [])%list)
    end.
Proof.
  unfold decode_member. destruct (find_field fields member.1) as [f|].
  - now destruct (field_decode f member.2 acc.1).
  - rewrite app_nil_r. now destruct acc.
Qed.

Lemma find_field_status (key : string) :
  find_field status_fields key
  = if String.eqb (foldName key) "INDICATESLIMITEDAVAILABILITY" then Some status_field_limited
    else if String.eqb (foldName key) "MESSAGE" then Some status_field_message
    else if String.eqb (foldName key) "EMOJI" then Some status_field_emoji
    else None.
Proof.
  destruct foldName_status_fields as (F1 & F2 & F3).
  unfold find_field, status_fields.
  cbn [List.find field_name status_field_limited status_field_message status_field_emoji
         field_of].
  destruct (String.eqb_spec "IndicatesLimitedAvailability" key) as [<-|_];
    [rewrite F1; reflexivity|].
  destruct (String.eqb_spec "Message" key) as [<-|_]; [rewrite F2; reflexivity|].
  destruct (String.eqb_spec "Emoji" key) as [<-|_]; [rewrite F3; reflexivity|].
  rewrite F1, F2, F3.
  rewrite (String.eqb_sym "INDICATESLIMITEDAVAILABILITY"), (String.eqb_sym "MESSAGE"),
    (String.eqb_sym "EMOJI").
  destruct (String.eqb (foldName key) "INDICATESLIMITEDAVAILABILITY"); [reflexivity|].
  destruct (String.eqb (foldName key) "MESSAGE"); [reflexivity|].
  destruct (String.eqb (foldName key) "EMOJI"); reflexivity.
Qed.

(** A member of a [status] object brings type errors exactly when it does
    not fit the field it selects. *)
Lemma decode_status_member_fits (acc : status * list error) (member : string * json) :
  (decode_member status_fields acc member).2 = [] <->
  acc.2 = [] /\ status_field_fits member = true.
Proof.
  rewrite decode_member_eq, find_field_status. unfold status_field_fits.
  destruct (String.eqb (foldName member.1) "INDICATESLIMITEDAVAILABILITY");
    [|destruct (String.eqb (foldName member.1) "MESSAGE");
      [|destruct (String.eqb (foldName member.1) "EMOJI")]];
    cbn [snd orb];
    unfold status_field_limited, status_field_message, status_field_emoji;
    rewrite ?field_of_errors;
    rewrite ?(decode_bool_fits member.2), ?(decode_string_fits member.2).
  all: split;
    [ intros H; apply List.app_eq_nil in H as [H1 H2]; split; [exact H1|];
      first [ now apply decode_bool_fits in H2
            | now apply decode_string_fits in H2
            | reflexivity ]
    | intros [-> H2]; cbn [app];
      first [ now apply decode_bool_fits | now apply decode_string_fits | reflexivity ] ].
Qed.

Lemma decode_status_members_fits (members : list (string * json))
    (acc : status * list error) :
  (fold_left (decode_member status_fields) members acc).2 = [] <->
  acc.2 = [] /\ forallb status_field_fits members = true.
Proof.
  revert acc. induction members as [|member members IH]; intros acc.
  - cbn. tauto.
  - cbn [fold_left forallb]. rewrite IH, decode_status_member_fits, andb_true_iff. tauto.
Qed.

Lemma decode_status_fits (j : json) (cur : status) :
  (decode_status j cur).2 = [] <-> fits_status j = true.
Proof.
  unfold decode_status.
  destruct j as [| | | | |members]; cbn [decode_struct fits_status snd];
    try (split; [discriminate | discriminate]); try tauto.
  rewrite decode_status_members_fits. cbn [snd]. tauto.
Qed.

(** The decoder of the status lookup meets no type error exactly on the
    documents that fit its three levels of maps and the status. *)
Lemma decode_statusMaps_fits (j : json) (cur : gmap string (gmap string (gmap string status))) :
  (decode_statusMaps j cur).2 = [] <-> fits_statusMaps j = true.
Proof.
  unfold decode_statusMaps, fits_statusMaps.
  apply decode_map_fits. intros v2.
  apply decode_map_fits. intros v3.
  apply decode_map_fits. intros v4.
  apply decode_status_fits.
Qed.

(** What [resp["data"][key]["status"]] finds is the decoding of the value at
    the end of the path in the document, when the path is there. *)
Lemma statusMaps_lookup (j : json) (key : string) :
  default ∅ (default ∅ ((decode_statusMaps j ∅).1 !! "data") !! key) !! "status"
  = match json_path ["data"; key; "status"] j with
    | Some v => Some (decode_status v zero_status).1
    | None => None
    end.
Proof.
  unfold decode_statusMaps. cbn [json_path].
  rewrite (decode_map_lookup ∅ (decode_map _ ∅ (decode_map _ zero_status decode_status))
             _ j "data").
  destruct (json_member "data" j) as [v2|]; cbn [default from_option id]; [|apply lookup_empty].
  rewrite (decode_map_lookup ∅ (decode_map _ zero_status decode_status) _ v2 key).
  destruct (json_member key v2) as [v3|]; cbn [default from_option id]; [|apply lookup_empty].
  rewrite (decode_map_lookup zero_status decode_status _ v3 "status").
  destruct (json_member "status" v3) as [v4|]; reflexivity.
Qed.

Lemma json_Unmarshal_eq {T : Type} (dec : decoder T) (data : string) (v : T) :
  json_Unmarshal dec data v
  = match json_parse data with
    | None => (v, Some json_SyntaxError)
    | Some j => ((dec j v).1, head (dec j v).2)
    end.
Proof.
  unfold json_Unmarshal. destruct (json_parse data) as [j|]; [|reflexivity].
  now destruct (dec j v).
Qed.

(** ** The single-user lookup *)

Lemma run_apiStatus (w : World) (login : string) :
  run w (apiStatus login) =
  let key := if String.eqb login "" then "viewer" else "user" in
  let args := ["api"; "graphql"; "-f";
               "query=" ++ (if String.eqb login "" then viewer_query else user_query login)] in
  match world_LookPath w [] "gh" with
  | (path, Some e) =>
      (Returned (None, Some (fmt_Errorf "could not find gh. Is it installed? error: " e "")),
       [EvLookPath "gh" path (Some e)])
  | (path, None) =>
      match world_Run w [EvLookPath "gh" path None] path args with
      | (sout, eout, Some e) =>
          (Returned (None, Some (fmt_Errorf "failed to run gh. error: " e
                                   (", stderr: " ++ eout))),
           [EvLookPath "gh" path None; EvRun path args sout eout (Some e)])
      | (sout, eout, None) =>
          (Returned
             match json_parse sout with
             | None => (None, Some (fmt_Errorf "failed to deserialize JSON: " json_SyntaxError ""))
             | Some j =>
                 match head (decode_statusMaps j ∅).2 with
                 | Some e => (None, Some (fmt_Errorf "failed to deserialize JSON: " e ""))
                 | None =>
                     match json_path ["data"; key; "status"] j with
                     | Some v => (Some (decode_status v zero_status).1, None)
                     | None => (None, Some (errors_New "failed to deserialize JSON"))
                     end
                 end
             end,
           [EvLookPath "gh" path None; EvRun path args sout eout None])
      end
  end.
Proof.
  unfold run, apiStatus. rewrite exec_mbind, exec_gh.
  world_cases; try reflexivity.
  rewrite json_Unmarshal_eq. destruct (json_parse sout) as [j|]; [|reflexivity].
  destruct (head (decode_statusMaps j ∅).2) as [e|]; [reflexivity|].
  rewrite statusMaps_lookup.
  destruct (json_path _ j) as [v|]; reflexivity.
Qed.

(** What [apiStatus] returns once the tool has answered, read off the
    document. *)
Lemma apiStatus_result (w : World) (login : string)
    (name : string) (args : list string) (out eout : string) :
  In (EvRun name args out eout None) (run w (apiStatus login)).2 ->
  let res := (run w (apiStatus login)).1 in
  let key := if String.eqb login "" then "viewer" else "user" in
  match json_parse out with
  | None =>
      res = Returned (None, Some (fmt_Errorf "failed to deserialize JSON: " json_SyntaxError ""))
  | Some j =>
      if fits_statusMaps j then
        res = Returned match json_path ["data"; key; "status"] j with
                       | Some v => (Some (decode_status v zero_status).1, None)
                       | None => (None, Some (errors_New "failed to deserialize JSON"))
                       end
      else exists e, res = Returned (None, Some (fmt_Errorf "failed to deserialize JSON: " e ""))
  end.
Proof.
  rewrite run_apiStatus. cbv zeta. world_cases; intros H; in_trace H.
  injection H as <- <- <- <-.
  destruct (json_parse sout) as [j|]; [|reflexivity].
  pose proof (decode_statusMaps_fits j ∅) as Hfits.
  destruct (decode_statusMaps j ∅).2 as [|e errs]; cbn [head].
  - rewrite (proj1 Hfits eq_refl). reflexivity.
  - destruct (fits_statusMaps j); [|eauto].
    destruct Hfits as [_ Hfits]. discriminate (Hfits eq_refl).
Qed.

(** C7, as the program has it.  Once the tool has answered, the single-user
    lookup ([apiStatus]) fails with a decode error exactly when the response
    is not valid JSON, or holds a value of a JSON type that does not fit the
    Go type at its place, or lacks the path [data], then [viewer] or [user],
    then [status]; in every other case it returns a status.  It never
    returns a default status for a response without the path. *)
Theorem apiStatus_decode_error (w : World) (login key : string)
    (name : string) (args : list string) (out eout : string) :
  let res := (run w (apiStatus login)).1 in
  In (EvRun name args out eout None) (run w (apiStatus login)).2 ->
  (login = "" /\ key = "viewer") \/ (login <> "" /\ key = "user") ->
  ((exists e, res = Returned (None, Some e) /\ decode_error e)
   <-> (json_parse out = None
        \/ exists j, json_parse out = Some j
             /\ (fits_statusMaps j = false \/ json_path ["data"; key; "status"] j = None)))
  /\ ((exists s, res = Returned (Some s, None))
      <-> (exists j v, json_parse out = Some j /\ fits_statusMaps j = true
             /\ json_path ["data"; key; "status"] j = Some v)).
Proof.
  cbv zeta. intros H Hkey. pose proof (apiStatus_result _ _ _ _ _ _ H) as R.
  cbv zeta in R.
  assert (Ek : (if String.eqb login "" then "viewer" else "user") = key).
  { destruct Hkey as [[-> ->]|[Hne ->]]; [reflexivity|].
    now destruct (String.eqb_spec login ""). }
  rewrite Ek in R. clear Ek Hkey H.
  destruct (json_parse out) as [j|].
  - destruct (fits_statusMaps j) eqn:Hfits.
    + destruct (json_path ["data"; key; "status"] j) as [v|] eqn:Hpath; rewrite R; split.
      * split.
        -- intros (e & He & _). discriminate He.
        -- intros [Hn|(j' & Hj & [Hf|Hp])]; [discriminate Hn | | ];
             injection Hj as <-; congruence.
      * split; [intros _; eauto 6 | intros _; eauto].
      * split.
        -- intros _. right. exists j. auto.
        -- intros _. eexists. split; [reflexivity | left; reflexivity].
      * split.
        -- intros (s & Hs). discriminate Hs.
        -- intros (j' & v & Hj & _ & Hp). injection Hj as <-. congruence.
    + destruct R as [e R]. rewrite R. split.
      * split.
        -- intros _. right. exists j. auto.
        -- intros _. eexists. split; [reflexivity | right; eauto].
      * split.
        -- intros (s & Hs). discriminate Hs.
        -- intros (j' & v & Hj & Hf & _). injection Hj as <-. congruence.
  - rewrite R. split.
    + split.
      * intros _. left. reflexivity.
      * intros _. eexists. split; [reflexivity | right; eauto].
    + split.
      * intros (s & Hs). discriminate Hs.
      * intros (j' & v & Hj & _). discriminate Hj.
Qed.

Lemma apiStatus_decode_error_witness :
  exists e,
    (run (world_answering no_status_response) (apiStatus "octocat")).1
    = Returned (None, Some e)
    /\ decode_error e.
Proof.
  apply (apiStatus_decode_error (world_answering no_status_response) "octocat" "user"
           "/usr/bin/gh" ["api"; "graphql"; "-f"; "query=" ++ user_query "octocat"]
           no_status_response "").
  - vm_compute. right. left. reflexivity.
  - right. split; [discriminate | reflexivity].
  - right. exists (JObject [("data", JObject [("user", JObject [])])]).
    split; [vm_compute; reflexivity | right; vm_compute; reflexivity].
Defined.

(** C7 as the specification states it does not hold: a decode error also
    comes from a response that is valid JSON and has the whole path.  Here
    the response has, next to [data], an [extensions] object that holds an
    array: the array does not fit the innermost map of the target. *)
Lemma apiStatus_decode_error_with_path_present :
  let r := run (world_answering extensions_response) (apiStatus "octocat") in
  In (EvRun "/usr/bin/gh" ["api"; "graphql"; "-f"; "query=" ++ user_query "octocat"]
        extensions_response "" None) r.2
  /\ (exists j, json_parse extensions_response = Some j
        /\ json_path ["data"; "user"; "status"] j
           = Some (JObject [("message", JString "on vacation")]))
  /\ r.1 = Returned (None, Some (fmt_Errorf "failed to deserialize JSON: "
                                  (json_UnmarshalTypeError "array" "map[string]main.status")
                                  ""))
  /\ decode_error (fmt_Errorf "failed to deserialize JSON: "
                     (json_UnmarshalTypeError "array" "map[string]main.status") "").
Proof.
  cbv zeta. split; [|split; [|split]].
  - vm_compute. right. left. reflexivity.
  - eexists. split; vm_compute; reflexivity.
  - vm_compute. reflexivity.
  - right. eexists. reflexivity.
Qed.

(** The same with a value of the wrong type on the path itself: the message
    of the status is a number. *)
Example apiStatus_number_message :
  (run (world_answering number_message_response) (apiStatus "octocat")).1
  = Returned (None, Some (fmt_Errorf "failed to deserialize JSON: "
                            (json_UnmarshalTypeError "number" "string") "")).
Proof. vm_compute. reflexivity. Qed.








(** ** The get operation returns *)

(** [runGetTeam] indexes the pieces of the login at 0 and 1, and both lookups
    dereference what the [api] function returned.  Under [runGet] neither
    panics: a login with the separator has two pieces, and the [api]
    functions return a value whenever they return no error. *)
Lemma runGet_returns (em : emojiManager)
    (U : string -> list memberStatus * option error) (w : World) (opts : getOptions) :
  exists err, (run w (runGet em U opts)).1 = Returned err.
Proof.
  unfold runGet.
  destruct (strings_Contains (getOptions_Login opts) "/") eqn:Hsep.
  - change "/" with (str1 "/") in Hsep. apply Contains_byte in Hsep.
    destruct (Split_two_pieces "/" _ Hsep) as (org & slug & rest & Hsplit).
    change (str1 "/") with "/" in Hsplit.
    unfold runGetTeam, run. rewrite Hsplit, exec_mbind.
    fold (run w (apiTeam U org slug)). rewrite run_apiTeam.
    world_cases; eauto.
    destruct (U sout) as [nodes [e|]]; unfold mret, M_ret; cbn [exec fst]; eauto.
    rewrite exec_mbind, exec_print_members. cbn [exec fst]. eauto.
  - unfold runGetUser, run. rewrite exec_mbind.
    fold (run w (apiStatus (getOptions_Login opts))). rewrite run_apiStatus.
    world_cases; eauto.
    destruct (json_parse sout) as [j|]; cbn [exec fst]; eauto.
    destruct (head (decode_statusMaps j ∅).2); cbn [exec fst]; eauto.
    destruct (json_path _ j); cbn [exec fst]; eauto.
Qed.

(** ** The scanner on sample texts *)

Example parse_null_status :
  json_parse null_status_response
  = Some (JObject [("data", JObject [("user", JObject [("status", JNull)])])]).
Proof. vm_compute. reflexivity. Qed.

Example parse_values :
  json_parse (json_text " { 'a' : [1, 2.5e+3, -0, true, false, null, [], {}], 'a' : 'bé\n' } ")
  = Some (JObject
            [("a", JArray [JNumber "1"; JNumber "2.5e+3"; JNumber "-0"; JBool true;
                           JBool false; JNull; JArray []; JObject []]);
             ("a", JString (String "b" (String "195" (String "169" (String "010" "")))))]).
Proof. vm_compute. reflexivity. Qed.

Example parse_refuses :
  List.map json_parse
    [""; "01"; "-"; "1."; "[1,]"; "{,}"; "nul"; "null x"; "[1 2]"; "tru"; ".5"; "+1"; "]"]
  = List.repeat None 13.
Proof. vm_compute. reflexivity. Qed.

Example parse_refuses_strings :
  List.map (fun s => json_parse (json_text s))
    ["'abc"; "'a\qb'"; "'a\u12G4'"; "{'a' 1}"; "{'a':}"; "{1:2}"; "{'a':1,}"]
  = List.repeat None 7.
Proof. vm_compute. reflexivity. Qed.

(** Field names are matched without regard to case, an exact match first. *)
Example decode_status_folds_names :
  decode_status
    (JObject [("MESSAGE", JString "a"); ("emoji", JString ":b:");
              ("indicateslimitedavailability", JBool true); ("Message", JNull);
              ("other", JNumber "1")])
    zero_status
  = (mkStatus true "a" ":b:", []).
Proof. vm_compute. reflexivity. Qed.

Example format_sample :
  Time_Format_2006_01_02T15_04_05_0700 (mkTime 951782400 0 (fun _ => -25200 - 1800))
  = "2000-02-28T16:30:00-0730".
Proof. vm_compute. reflexivity. Qed.

(** ** Sample runs *)

(** A status is shown with its emoji, its message and the availability. *)
Example runGetUser_shows_status :
  run (world_answering wave_response)
    (runGetUser plain_emojiManager (mkGetOptions "octocat"))
  = (Returned None,
     [EvLookPath "gh" "/usr/bin/gh" None;
      EvRun "/usr/bin/gh" ["api"; "graphql"; "-f"; "query=" ++ user_query "octocat"]
        wave_response "" None;
      EvPrintln ":palm_tree: on vacation (availability is limited)"]).
Proof. vm_compute. reflexivity. Qed.

(** The clear command sends an empty emoji; a response that echoes no status
    at all decodes to the empty emoji, and the command succeeds. *)
Example clearCmd_succeeds :
  (run (world_answering (json_text "{'data':{'changeUserStatus':{'status':null}}}"))
     (clearCmd_RunE plain_emojiManager)).1
  = Returned None.
Proof. vm_compute. reflexivity. Qed.

(** Without [gh] nothing is run and the error of the lookup is returned,
    wrapped. *)
Example runSet_without_gh :
  run world_without_gh (runSet plain_emojiManager rocket_opts)
  = (Returned (Some (fmt_Errorf "could not find gh. Is it installed? error: "
                       (foreign_error "executable file not found in $PATH") "")),
     [EvLookPath "gh" "" (Some (foreign_error "executable file not found in $PATH"))]).
Proof. vm_compute. reflexivity. Qed.

(** ** More on the set operation *)

(** All of the run of [runSet], case by case: the tests are decided and
    every trace is known event by event. *)
Ltac runSet_cases :=
  cbv zeta; rewrite run_runSet;
  destruct (0 <? setOptions_Expiry _); cbv zeta;
  unfold runSet_invoke, runSet_decode; run_program;
  cbn [fst snd].

(** X1. Whatever happens, [runSet] starts at most three processes (two runs
    of the mutation and one [gh auth refresh]), asks at most one
    confirmation, reads the clock at most once and writes at most two lines;
    and it returns: it never panics. *)
Theorem runSet_bounded (em : emojiManager) (w : World) (opts : setOptions) :
  let res := (run w (runSet em opts)).1 in
  let tr := (run w (runSet em opts)).2 in
  (List.length (List.filter is_Run tr) <= 2)%nat
  /\ (List.length (List.filter is_RunInteractive tr) <= 1)%nat
  /\ (List.length (List.filter is_LookPath tr) <= 3)%nat
  /\ (List.length (List.filter is_AskOne tr) <= 1)%nat
  /\ (List.length (List.filter is_Now tr) <= 1)%nat
  /\ (List.length (printed tr) <= 2)%nat
  /\ exists err, res = Returned err.
Proof.
  runSet_cases; cbn; repeat split; try lia; eauto.
Qed.

(** X2. Every process that [runSet] runs with captured output gets the same
    twelve arguments: the mutation as the query, the message as it was
    given, byte for byte, the availability as [true] or [false], and the
    emoji and the expiry.  The organization of the options ([--org]) is
    used nowhere: two requests that differ in it only are the same
    program. *)
Theorem runSet_argument_vector (em : emojiManager) (w : World) (opts : setOptions)
    (name : string) (args : list string) (out eout : string) (err : option error) :
  In (EvRun name args out eout err) (run w (runSet em opts)).2 ->
  List.length args = 12%nat
  /\ firstn 6 args = ["api"; "graphql"; "-f"; "query=" ++ mutation;
                      "-f"; "message=" ++ setOptions_Message opts]
  /\ args !! 8%nat = Some "-F"
  /\ args !! 9%nat = Some (if setOptions_Limited opts then "limited=true" else "limited=false")
  /\ forall org,
       runSet em (mkSetOptions (setOptions_Message opts) (setOptions_Limited opts)
                    (setOptions_Expiry opts) (setOptions_Emoji opts) org)
       = runSet em opts.
Proof.
  intros H. apply runSet_args in H. subst args.
  split; [reflexivity|]. split; [reflexivity|]. split; [reflexivity|]. split.
  - unfold cmdArgs, limited_field. cbn. now destruct (setOptions_Limited opts).
  - intros org. now destruct opts.
Qed.

Lemma runSet_argument_vector_witness :
  In (EvRun "/usr/bin/gh" (cmdArgs lunch_opts "2023-11-14T22:43:20+0000") "{}" "" None)
    (run (world_answering "{}") (runSet plain_emojiManager lunch_opts)).2
  /\ cmdArgs lunch_opts "2023-11-14T22:43:20+0000" !! 9%nat = Some "limited=true"
  /\ firstn 6 (cmdArgs lunch_opts "2023-11-14T22:43:20+0000")
     = ["api"; "graphql"; "-f"; "query=" ++ mutation; "-f"; "message=lunch"].
Proof.
  assert (H : In (EvRun "/usr/bin/gh" (cmdArgs lunch_opts "2023-11-14T22:43:20+0000")
                    "{}" "" None)
                (run (world_answering "{}") (runSet plain_emojiManager lunch_opts)).2).
  { vm_compute. right. right. left. reflexivity. }
  destruct (runSet_argument_vector _ _ _ _ _ _ _ _ H) as (_ & Hfirst & _ & Hlimited & _).
  split; [exact H|]. split; [exact Hlimited | exact Hfirst].
Defined.

(** X3. When the first run of the mutation fails and its standard error does
    not hold the missing-scope marker, [runSet] returns the error of [gh]
    (the error of the process, wrapped with the text of standard error) and
    stops there: nothing is asked, nothing is written, no other process is
    started. *)
Theorem runSet_other_failure_is_fatal (em : emojiManager) (w : World) (opts : setOptions)
    (name : string) (args : list string) (out eout : string) (e : error) :
  let res := (run w (runSet em opts)).1 in
  let tr := (run w (runSet em opts)).2 in
  head (List.filter is_Run tr) = Some (EvRun name args out eout (Some e)) ->
  strings_Contains eout scope_marker = false ->
  res = Returned (Some (fmt_Errorf "failed to run gh. error: " e (", stderr: " ++ eout)))
  /\ last tr = Some (EvRun name args out eout (Some e))
  /\ processes tr = [EvRun name args out eout (Some e)]
  /\ List.filter is_AskOne tr = []
  /\ printed tr = [].
Proof.
  runSet_cases; cbn [List.filter is_Run head]; intros Hfirst Hmark;
    try discriminate Hfirst; injection Hfirst as -> -> -> -> ->; try congruence;
    repeat split.
Qed.

Lemma runSet_other_failure_is_fatal_witness :
  (run world_offline (runSet plain_emojiManager rocket_opts)).1
  = Returned (Some (fmt_Errorf "failed to run gh. error: " (foreign_error "exit status 1")
                      ", stderr: error connecting to api.github.com"))
  /\ printed (run world_offline (runSet plain_emojiManager rocket_opts)).2 = [].
Proof.
  destruct (runSet_other_failure_is_fatal plain_emojiManager world_offline rocket_opts
              "/usr/bin/gh" (cmdArgs rocket_opts "null") ""
              "error connecting to api.github.com" (foreign_error "exit status 1"))
    as (Hres & _ & _ & _ & Hprinted).
  - vm_compute. reflexivity.
  - vm_compute. reflexivity.
  - split; [exact Hres | exact Hprinted].
Defined.

(** X4. When the confirmation cannot be asked, [runSet] returns the error of
    the prompt wrapped as [could not prompt: ...] and stops there: the
    re-authentication is not run and the mutation is not tried again. *)
Theorem runSet_prompt_failure (em : emojiManager) (w : World) (opts : setOptions)
    (question : string) (default : bool) (e : error) :
  let res := (run w (runSet em opts)).1 in
  let tr := (run w (runSet em opts)).2 in
  In (EvAskOne question default (inr e)) tr ->
  res = Returned (Some (fmt_Errorf "could not prompt: " e ""))
  /\ last tr = Some (EvAskOne question default (inr e))
  /\ List.length (processes tr) = 1%nat
  /\ printed tr = [sorry_line].
Proof.
  runSet_cases; intros H; in_trace H; injection H as <- <- <-; repeat split.
Qed.

Lemma runSet_prompt_failure_witness :
  (run world_no_terminal (runSet plain_emojiManager rocket_opts)).1
  = Returned (Some (fmt_Errorf "could not prompt: " (foreign_error "EOF") "")).
Proof.
  apply (runSet_prompt_failure plain_emojiManager world_no_terminal rocket_opts
           confirm_question true (foreign_error "EOF")).
  vm_compute. right. right. right. left. reflexivity.
Defined.

(** X5. When a run of the mutation succeeds but its output does not decode
    (it is not valid JSON, or a value has the wrong type), [runSet] returns
    the error of the decoder wrapped as [failed to deserialize JSON: ...],
    whatever emoji was decoded before the error, and writes no line after
    the run. *)
Theorem runSet_undecodable_output (em : emojiManager) (w : World) (opts : setOptions)
    (name : string) (args : list string) (out eout : string)
    (resp : setResponse) (e : error) :
  let res := (run w (runSet em opts)).1 in
  let tr := (run w (runSet em opts)).2 in
  In (EvRun name args out eout None) tr ->
  json_Unmarshal decode_setResponse out zero_setResponse = (resp, Some e) ->
  res = Returned (Some (fmt_Errorf "failed to deserialize JSON: " e ""))
  /\ last tr = Some (EvRun name args out eout None)
  /\ (json_parse out = None -> e = json_SyntaxError).
Proof.
  cbv zeta. intros H HU.
  assert (Hsyntax : json_parse out = None -> e = json_SyntaxError).
  { intros Hp. rewrite json_Unmarshal_eq, Hp in HU. congruence. }
  revert H. runSet_cases; intros H; in_trace H; injection H as -> -> -> ->;
    match goal with
    | D : json_Unmarshal _ _ _ = _ |- _ =>
        rewrite HU in D; first [discriminate D | injection D as <- <-]
    end; repeat split; exact Hsyntax.
Qed.

Lemma runSet_undecodable_output_witness :
  (run (world_answering "Bad credentials") (runSet plain_emojiManager rocket_opts)).1
  = Returned (Some (fmt_Errorf "failed to deserialize JSON: " json_SyntaxError "")).
Proof.
  apply (runSet_undecodable_output plain_emojiManager (world_answering "Bad credentials")
           rocket_opts "/usr/bin/gh" (cmdArgs rocket_opts "null") "Bad credentials" ""
           zero_setResponse json_SyntaxError).
  - vm_compute. right. left. reflexivity.
  - vm_compute. reflexivity.
Defined.

(** X6. How [runSet] ends.  It returns no error in two cases only: the
    person declined the confirmation, which is then the last event, or the
    change was verified and the last event is the line that says so.  When
    it returns an error the last event is never a line of output. *)
Theorem runSet_last_event (em : emojiManager) (w : World) (opts : setOptions) :
  let res := (run w (runSet em opts)).1 in
  let tr := (run w (runSet em opts)).2 in
  (res = Returned None ->
   last tr = Some (EvAskOne confirm_question true (inl false))
   \/ (last tr = Some (EvPrintln (ReplaceAll em (set_line opts)))
       /\ exists name args out eout, In (EvRun name args out eout None) tr))
  /\ (forall e line, res = Returned (Some e) -> last tr <> Some (EvPrintln line)).
Proof.
  runSet_cases; (split; [intros Hres; try discriminate Hres | intros e line Hres;
                                                            try discriminate Hres]);
    try (left; reflexivity);
    try (right; split; [reflexivity | do 4 eexists; cbn [In]; eauto 12]);
    cbn; discriminate.
Qed.

Lemma runSet_last_event_witness :
  last (run (world_answering rocket_response) (runSet plain_emojiManager rocket_opts)).2
  = Some (EvAskOne confirm_question true (inl false))
  \/ (last (run (world_answering rocket_response) (runSet plain_emojiManager rocket_opts)).2
      = Some (EvPrintln (ReplaceAll plain_emojiManager (set_line rocket_opts)))
      /\ exists name args out eout,
           In (EvRun name args out eout None)
             (run (world_answering rocket_response) (runSet plain_emojiManager rocket_opts)).2).
Proof.
  apply (proj1 (runSet_last_event plain_emojiManager (world_answering rocket_response)
                  rocket_opts)).
  vm_compute. reflexivity.
Defined.

(** X7. Every process of [runSet] is run at the path that
    [safeexec.LookPath] has just found for [gh]: each run, captured or
    attached, comes right after a lookup of [gh] that succeeded, and runs
    the path of that lookup. *)
Theorem runSet_runs_resolved (em : emojiManager) (w : World) (opts : setOptions) :
  runs_resolved None (run w (runSet em opts)).2 = true.
Proof.
  runSet_cases; cbn [runs_resolved andb]; rewrite ?String.eqb_refl; reflexivity.
Qed.

(** ** More on the get operation *)

Lemma read_status_returns (key out : string) :
  (exists s, read_status key out = (Some s, None))
  \/ (exists e, read_status key out = (None, Some e)).
Proof.
  unfold read_status. destruct (json_parse out) as [j|]; [|eauto].
  destruct (head (decode_statusMaps j ∅).2); [eauto|].
  destruct (json_path _ j); eauto.
Qed.

(** The run of [runGetUser], whatever the world. *)
Lemma run_runGetUser (em : emojiManager) (w : World) (opts : getOptions) :
  run w (runGetUser em opts) =
  let login := getOptions_Login opts in
  let key := if String.eqb login "" then "viewer" else "user" in
  let args := ["api"; "graphql"; "-f";
               "query=" ++ (if String.eqb login "" then viewer_query else user_query login)] in
  match world_LookPath w [] "gh" with
  | (path, Some e) =>
      (Returned (Some (fmt_Errorf "could not find gh. Is it installed? error: " e "")),
       [EvLookPath "gh" path (Some e)])
  | (path, None) =>
      match world_Run w [EvLookPath "gh" path None] path args with
      | (sout, eout, Some e) =>
          (Returned (Some (fmt_Errorf "failed to run gh. error: " e (", stderr: " ++ eout))),
           [EvLookPath "gh" path None; EvRun path args sout eout (Some e)])
      | (sout, eout, None) =>
          match read_status key sout with
          | (_, Some e) =>
              (Returned (Some e), [EvLookPath "gh" path None; EvRun path args sout eout None])
          | (Some s, None) =>
              (Returned None,
               [EvLookPath "gh" path None; EvRun path args sout eout None;
                EvPrintln (ReplaceAll em (status_line s))])
          | (None, None) =>
              (Panicked "invalid memory address or nil pointer dereference",
               [EvLookPath "gh" path None; EvRun path args sout eout None])
          end
      end
  end.
Proof.
  unfold runGetUser, run. rewrite exec_mbind.
  fold (run w (apiStatus (getOptions_Login opts))). rewrite run_apiStatus.
  world_cases; try reflexivity.
  fold (read_status (if String.eqb (getOptions_Login opts) "" then "viewer" else "user") sout).
  destruct (read_status _ sout) as [[s|] [e|]]; reflexivity.
Qed.

(** The run of [runGetTeam] on a login of two pieces or more. *)
Lemma run_runGetTeam (em : emojiManager)
    (U : string -> list memberStatus * option error) (w : World) (opts : getOptions)
    (org slug : string) (rest : list string) :
  strings_Split (getOptions_Login opts) "/" = org :: slug :: rest ->
  run w (runGetTeam em U opts) =
  let args := ["api"; "graphql"; "-f";
               "query=" ++ team_query (if String.eqb org "" then "{owner}" else org) slug] in
  match world_LookPath w [] "gh" with
  | (path, Some e) =>
      (Returned (Some (fmt_Errorf "could not find gh. Is it installed? error: " e "")),
       [EvLookPath "gh" path (Some e)])
  | (path, None) =>
      match world_Run w [EvLookPath "gh" path None] path args with
      | (sout, eout, Some e) =>
          (Returned (Some (fmt_Errorf "failed to run gh. error: " e (", stderr: " ++ eout))),
           [EvLookPath "gh" path None; EvRun path args sout eout (Some e)])
      | (sout, eout, None) =>
          match U sout with
          | (_, Some e) =>
              (Returned (Some (fmt_Errorf "failed to deserialize JSON: " e "")),
               [EvLookPath "gh" path None; EvRun path args sout eout None])
          | (nodes, None) =>
              (Returned None,
               [EvLookPath "gh" path None; EvRun path args sout eout None]
               ++ List.map (fun n => EvPrintln (ReplaceAll em (member_line n))) nodes)%list
          end
      end
  end.
Proof.
  intros Hsplit. unfold runGetTeam, run. rewrite Hsplit, exec_mbind.
  fold (run w (apiTeam U org slug)). rewrite run_apiTeam.
  world_cases; try reflexivity.
  destruct (U sout) as [nodes [e|]]; unfold mret, M_ret; cbn [exec]; [reflexivity|].
  rewrite exec_mbind, exec_print_members. reflexivity.
Qed.

Lemma filter_lines {A : Type} (p : Event -> bool) (f : A -> string) (l : list A) :
  (forall line, p (EvPrintln line) = false) ->
  List.filter p (List.map (fun n => EvPrintln (f n)) l) = [].
Proof.
  intros Hp. induction l as [|n l IH]; cbn [List.map List.filter]; [reflexivity|].
  now rewrite Hp.
Qed.

Lemma printed_lines {A : Type} (f : A -> string) (l : list A) :
  printed (List.map (fun n => EvPrintln (f n)) l) = List.map f l.
Proof.
  induction l as [|n l IH]; cbn [List.map printed flat_map app]; [reflexivity|].
  unfold printed in IH. now rewrite IH.
Qed.

Lemma runs_resolved_lines {A : Type} (f : A -> string) (l : list A) (prev : option Event) :
  runs_resolved prev (List.map (fun n => EvPrintln (f n)) l) = true.
Proof.
  revert prev. induction l as [|n l IH]; intros prev; cbn; [reflexivity|].
  apply IH.
Qed.

(** [runGet] calls the tool once, on either route, and always returns. *)
Lemma runGet_one_call (em : emojiManager)
    (U : string -> list memberStatus * option error) (w : World) (opts : getOptions) :
  let res := (run w (runGet em U opts)).1 in
  let tr := (run w (runGet em U opts)).2 in
  List.length (List.filter is_LookPath tr) = 1%nat
  /\ (List.length (processes tr) <= 1)%nat
  /\ List.filter is_RunInteractive tr = []
  /\ List.filter is_AskOne tr = []
  /\ List.filter is_Now tr = []
  /\ runs_resolved None tr = true
  /\ exists err, res = Returned err.
Proof.
  cbv zeta. unfold runGet.
  destruct (strings_Contains (getOptions_Login opts) "/") eqn:Hsep.
  - change "/" with (str1 "/") in Hsep. apply Contains_byte in Hsep.
    destruct (Split_two_pieces "/" _ Hsep) as (org & slug & rest & Hsplit).
    change (str1 "/") with "/" in Hsplit.
    rewrite (run_runGetTeam em U w opts org slug rest Hsplit). cbv zeta.
    world_cases; try (cbn; rewrite ?String.eqb_refl; repeat split; try lia; eauto; fail).
    destruct (U sout) as [nodes [e|]]; cbn [fst snd];
      try (cbn; rewrite ?String.eqb_refl; repeat split; try lia; eauto; fail).
    unfold processes.
    cbn [List.filter is_LookPath is_Run is_RunInteractive is_AskOne is_Now orb app
           runs_resolved andb].
    rewrite !filter_lines by reflexivity.
    rewrite !String.eqb_refl, runs_resolved_lines. cbn [andb List.length].
    repeat split; try lia; eauto.
  - rewrite run_runGetUser. cbv zeta.
    world_cases; try (cbn; rewrite ?String.eqb_refl; repeat split; try lia; eauto; fail).
    destruct (read_status_returns
                (if String.eqb (getOptions_Login opts) "" then "viewer" else "user") sout)
      as [[s ->]|[e ->]];
      cbn; rewrite ?String.eqb_refl; repeat split; try lia; eauto.
Qed.

(** X9. [runGetTeam], called on a login without the separator, panics
    before anything else happens: it indexes the second piece of a split
    that has one piece.  No event is produced, whatever the world. *)
Theorem runGetTeam_without_separator (em : emojiManager)
    (U : string -> list memberStatus * option error) (w : World) (opts : getOptions) :
  strings_Contains (getOptions_Login opts) "/" = false ->
  strings_Split (getOptions_Login opts) "/" = [getOptions_Login opts]
  /\ run w (runGetTeam em U opts) = (Panicked "index out of range", []).
Proof.
  intros Hsep. change "/" with (str1 "/") in Hsep. apply Contains_byte_false in Hsep.
  assert (Hsplit : strings_Split (getOptions_Login opts) "/" = [getOptions_Login opts]).
  { unfold strings_Split. change "/" with (str1 "/"). now rewrite genSplit_last. }
  split; [exact Hsplit|].
  unfold runGetTeam, run. rewrite Hsplit. reflexivity.
Qed.

Lemma runGetTeam_without_separator_witness :
  strings_Split "octocat" "/" = ["octocat"]
  /\ run (world_answering "") (runGetTeam plain_emojiManager no_nodes (mkGetOptions "octocat"))
     = (Panicked "index out of range", []).
Proof. apply (runGetTeam_without_separator _ _ _ (mkGetOptions "octocat")). reflexivity. Defined.

(** X10. The team listing prints the roster as decoded: once the tool has
    answered a login with the separator, [runGet] prints one line per
    decoded node, in the order of the response, each passed through the
    emoji replacement, and returns no error; when the response does not
    decode it prints nothing and returns the decode error, wrapped. *)
Theorem runGet_team_lines (em : emojiManager)
    (U : string -> list memberStatus * option error) (w : World) (opts : getOptions)
    (name : string) (args : list string) (out eout : string) :
  let res := (run w (runGet em U opts)).1 in
  let tr := (run w (runGet em U opts)).2 in
  strings_Contains (getOptions_Login opts) "/" = true ->
  In (EvRun name args out eout None) tr ->
  match U out with
  | (nodes, None) =>
      res = Returned None
      /\ printed tr = List.map (fun n => ReplaceAll em (member_line n)) nodes
  | (_, Some e) =>
      res = Returned (Some (fmt_Errorf "failed to deserialize JSON: " e ""))
      /\ printed tr = []
  end.
Proof.
  cbv zeta. intros Hsep. unfold runGet. rewrite Hsep.
  change "/" with (str1 "/") in Hsep. apply Contains_byte in Hsep.
  destruct (Split_two_pieces "/" _ Hsep) as (org & slug & rest & Hsplit).
  change (str1 "/") with "/" in Hsplit.
  rewrite (run_runGetTeam em U w opts org slug rest Hsplit). cbv zeta.
  world_cases; intros H; try (in_trace H; fail).
  destruct (U sout) as [nodes [e|]] eqn:HU; cbn [fst snd] in H |- *.
  - in_trace H. injection H as <- <- <- <-. rewrite HU. split; reflexivity.
  - destruct H as [H|[H|H]]; try discriminate H.
    + injection H as <- <- <- <-. rewrite HU. split; [reflexivity|].
      unfold printed. cbn [flat_map app].
      exact (printed_lines (fun n => ReplaceAll em (member_line n)) nodes).
    + exfalso. apply List.in_map_iff in H as [n [Hn _]]. discriminate Hn.
Qed.

Lemma runGet_team_lines_witness :
  (run (world_answering "") (runGet plain_emojiManager two_nodes (mkGetOptions "github/docs"))).1
  = Returned None
  /\ printed (run (world_answering "")
                (runGet plain_emojiManager two_nodes (mkGetOptions "github/docs"))).2
     = ["hubot: :pager: on call (availability is limited)"; "monalisa:   "].
Proof.
  exact (runGet_team_lines plain_emojiManager two_nodes (world_answering "")
           (mkGetOptions "github/docs") "/usr/bin/gh"
           ["api"; "graphql"; "-f"; "query=" ++ team_query "github" "docs"] "" ""
           eq_refl (or_intror (or_introl eq_refl))).
Defined.


(** What [runGetUser] does once the tool has answered, read off the
    output. *)
Lemma runGetUser_answered (em : emojiManager) (w : World) (opts : getOptions)
    (name : string) (args : list string) (out eout : string) :
  In (EvRun name args out eout None) (run w (runGetUser em opts)).2 ->
  let key := if String.eqb (getOptions_Login opts) "" then "viewer" else "user" in
  match read_status key out with
  | (_, Some e) =>
      (run w (runGetUser em opts)).1 = Returned (Some e)
      /\ printed (run w (runGetUser em opts)).2 = []
  | (Some s, None) =>
      (run w (runGetUser em opts)).1 = Returned None
      /\ printed (run w (runGetUser em opts)).2 = [ReplaceAll em (status_line s)]
      /\ last (run w (runGetUser em opts)).2 = Some (EvPrintln (ReplaceAll em (status_line s)))
  | (None, None) => False
  end.
Proof.
  rewrite run_runGetUser. cbv zeta.
  world_cases; try (intros H; in_trace H; fail).
  destruct (read_status (if String.eqb (getOptions_Login opts) "" then "viewer" else "user")
              sout) as [[s|] [e|]] eqn:Hread; cbn [fst snd]; intros H; in_trace H;
    injection H as <- <- <- <-; rewrite Hread; repeat split.
  destruct (read_status_returns
              (if String.eqb (getOptions_Login opts) "" then "viewer" else "user") sout)
    as [[s Hs]|[e He]]; congruence.
Qed.



(** X12. A user without a status is shown as an empty status, not as an
    error: when the response fits the types and holds [null] at [data],
    the key of the query and [status], [runGet] prints the line of the zero
    status, two blanks before the replacement, and returns no error. *)
Theorem runGet_user_without_status (em : emojiManager)
    (U : string -> list memberStatus * option error) (w : World) (opts : getOptions)
    (name : string) (args : list string) (out eout : string) (j : json) :
  let res := (run w (runGet em U opts)).1 in
  let tr := (run w (runGet em U opts)).2 in
  let key := if String.eqb (getOptions_Login opts) "" then "viewer" else "user" in
  strings_Contains (getOptions_Login opts) "/" = false ->
  In (EvRun name args out eout None) tr ->
  json_parse out = Some j ->
  fits_statusMaps j = true ->
  json_path ["data"; key; "status"] j = Some JNull ->
  res = Returned None /\ printed tr = [ReplaceAll em "  "].
Proof.
  cbv zeta. intros Hsep. unfold runGet. rewrite Hsep. intros H Hparse Hfits Hpath.
  apply runGetUser_answered in H. cbv zeta in H. unfold read_status in H.
  rewrite Hparse in H.
  apply decode_statusMaps_fits with (cur := ∅) in Hfits. rewrite Hfits in H. cbn [head] in H.
  rewrite Hpath in H. destruct H as (Hres & Hprinted & _). split; assumption.
Qed.

Lemma runGet_user_without_status_witness :
  (run (world_answering null_status_response)
     (runGet plain_emojiManager no_nodes (mkGetOptions "octocat"))).1 = Returned None
  /\ printed (run (world_answering null_status_response)
                (runGet plain_emojiManager no_nodes (mkGetOptions "octocat"))).2
     = ["  "].
Proof.
  exact (runGet_user_without_status plain_emojiManager no_nodes
           (world_answering null_status_response)
           (mkGetOptions "octocat") "/usr/bin/gh"
           ["api"; "graphql"; "-f"; "query=" ++ user_query "octocat"]
           null_status_response ""
           (JObject [("data", JObject [("user", JObject [("status", JNull)])])])
           eq_refl (or_intror (or_introl eq_refl)) eq_refl eq_refl eq_refl).
Defined.

(** X13. A failed listing prints nothing.  Whenever [runGet] returns an
    error, on either route, no line has been printed; when [gh] is not
    found no process is started and the error of the lookup is returned,
    wrapped; when the process fails its error is returned, wrapped with
    what it wrote on standard error. *)
Theorem runGet_failure (em : emojiManager)
    (U : string -> list memberStatus * option error) (w : World) (opts : getOptions) :
  let res := (run w (runGet em U opts)).1 in
  let tr := (run w (runGet em U opts)).2 in
  (forall e, res = Returned (Some e) -> printed tr = [])
  /\ (forall file path e, In (EvLookPath file path (Some e)) tr ->
        res = Returned (Some (fmt_Errorf "could not find gh. Is it installed? error: " e ""))
        /\ processes tr = [])
  /\ (forall name args out eout e, In (EvRun name args out eout (Some e)) tr ->
        res = Returned (Some (fmt_Errorf "failed to run gh. error: " e (", stderr: " ++ eout)))).
Proof.
  cbv zeta. unfold runGet.
  destruct (strings_Contains (getOptions_Login opts) "/") eqn:Hsep.
  - change "/" with (str1 "/") in Hsep. apply Contains_byte in Hsep.
    destruct (Split_two_pieces "/" _ Hsep) as (org & slug & rest & Hsplit).
    change (str1 "/") with "/" in Hsplit.
    rewrite (run_runGetTeam em U w opts org slug rest Hsplit). cbv zeta.
    world_cases.
    + repeat split; intros; try reflexivity; in_trace H; congruence.
    + repeat split; intros; try reflexivity; in_trace H; congruence.
    + destruct (U sout) as [nodes [e|]]; cbn [fst snd].
      * repeat split; intros; try reflexivity; in_trace H; congruence.
      * repeat split; intros; try discriminate;
          (destruct H as [H|[H|H]]; try discriminate H;
           apply List.in_map_iff in H as [n [Hn _]]; discriminate Hn).
  - rewrite run_runGetUser. cbv zeta.
    world_cases.
    + repeat split; intros; try reflexivity; in_trace H; congruence.
    + repeat split; intros; try reflexivity; in_trace H; congruence.
    + destruct (read_status_returns
                  (if String.eqb (getOptions_Login opts) "" then "viewer" else "user") sout)
        as [[s ->]|[e ->]]; cbn [fst snd];
        repeat split; intros; try reflexivity; try discriminate; in_trace H; congruence.
Qed.

Lemma runGet_failure_witness :
  (run world_offline (runGet plain_emojiManager no_nodes (mkGetOptions "github/docs"))).1
  = Returned (Some (fmt_Errorf "failed to run gh. error: " (foreign_error "exit status 1")
                      (", stderr: " ++ "error connecting to api.github.com")))
  /\ printed (run world_offline
                (runGet plain_emojiManager no_nodes (mkGetOptions "github/docs"))).2 = [].
Proof.
  destruct (runGet_failure plain_emojiManager no_nodes world_offline
              (mkGetOptions "github/docs")) as (Hquiet & _ & Hrun).
  split.
  - exact (Hrun "/usr/bin/gh" ["api"; "graphql"; "-f"; "query=" ++ team_query "github" "docs"]
             "" "error connecting to api.github.com" (foreign_error "exit status 1")
             (or_intror (or_introl eq_refl))).
  - exact (Hquiet _ (Hrun "/usr/bin/gh"
                       ["api"; "graphql"; "-f"; "query=" ++ team_query "github" "docs"]
                       "" "error connecting to api.github.com" (foreign_error "exit status 1")
                       (or_intror (or_introl eq_refl)))).
Defined.

(** ** The commands *)

(** [runSet] does not read the organisation of its options. *)
Lemma runSet_ignores_OrgName (em : emojiManager) (opts : setOptions) (org : string) :
  runSet em (mkSetOptions (setOptions_Message opts) (setOptions_Limited opts)
               (setOptions_Expiry opts) (setOptions_Emoji opts) org)
  = runSet em opts.
Proof. now destruct opts. Qed.

(** The text that [prompt] parses, in one definition. *)
Lemma expiry_text_eq (choice : string) :
  (if String.eqb (if String.eqb choice "Never" then "0s" else choice) "7d"
   then "168h"
   else if String.eqb choice "Never" then "0s" else choice)
  = expiry_text choice.
Proof. unfold expiry_text. now destruct (String.eqb choice "Never"). Qed.

(** X15. A message on the command line is sent as given and the prompt is
    not consulted: with a first argument that is not empty, the run of the
    set command is the run of [runSet] on the options of the flags with
    that message, whatever the prompt would have answered, and every
    request carries the argument in its message variable. *)
Theorem setCmd_message_argument (em : emojiManager) (Emojis : list emoji)
    (ParseDuration : string -> Z * option error) (w : World)
    (opts : setOptions) (arg : string) (rest : list string) (reply : answers + error) :
  arg <> "" ->
  let sent := mkSetOptions arg (setOptions_Limited opts) (setOptions_Expiry opts)
                (setOptions_Emoji opts) (setOptions_OrgName opts) in
  let tr := (run w (setCmd_RunE em Emojis ParseDuration opts (arg :: rest) reply)).2 in
  setCmd_RunE em Emojis ParseDuration opts (arg :: rest) reply = runSet em sent
  /\ forall name args out eout err,
       In (EvRun name args out eout err) tr ->
       args !! 5%nat = Some ("message=" ++ arg)
       /\ args !! 7%nat = Some ("emoji=" ++ emoji_field opts).
Proof.
  intros Harg. cbv zeta.
  assert (Heq : setCmd_RunE em Emojis ParseDuration opts (arg :: rest) reply
                = runSet em (mkSetOptions arg (setOptions_Limited opts) (setOptions_Expiry opts)
                               (setOptions_Emoji opts) (setOptions_OrgName opts))).
  { unfold setCmd_RunE. cbn [setOptions_Message].
    apply String.eqb_neq in Harg. now rewrite Harg. }
  split; [exact Heq|]. rewrite Heq.
  intros name args out eout err H. apply runSet_args in H. subst args.
  split; reflexivity.
Qed.

Lemma setCmd_message_argument_witness :
  setCmd_RunE plain_emojiManager sample_Emojis sample_ParseDuration setCmd_flags
    ["lunch"] (inl prompt_answers)
  = runSet plain_emojiManager (mkSetOptions "lunch" false 0 "thought_balloon" "").
Proof.
  refine (proj1 (setCmd_message_argument plain_emojiManager sample_Emojis sample_ParseDuration
                   (world_answering "") setCmd_flags "lunch" [] (inl prompt_answers) _)).
  discriminate.
Defined.

(** X16. When the prompt fails, nothing is sent: with no message on the
    command line (no argument, or an empty one) and an error of
    [survey.Ask], the set command returns that error as it is and produces
    no event, so [gh] is neither looked up nor run. *)
Theorem setCmd_prompt_error (em : emojiManager) (Emojis : list emoji)
    (ParseDuration : string -> Z * option error) (w : World)
    (opts : setOptions) (args : list string) (e : error) :
  hd (setOptions_Message opts) args = "" ->
  run w (setCmd_RunE em Emojis ParseDuration opts args (inr e)) = (Returned (Some e), []).
Proof.
  intros Hmsg. unfold setCmd_RunE.
  destruct args as [|arg rest]; cbn [hd] in Hmsg; cbn [setOptions_Message];
    rewrite Hmsg; reflexivity.
Qed.

Lemma setCmd_prompt_error_witness :
  run world_without_gh
    (setCmd_RunE plain_emojiManager sample_Emojis sample_ParseDuration setCmd_flags []
       (inr (foreign_error "interrupt")))
  = (Returned (Some (foreign_error "interrupt")), []).
Proof.
  apply (setCmd_prompt_error plain_emojiManager sample_Emojis sample_ParseDuration
           world_without_gh setCmd_flags [] (foreign_error "interrupt")).
  reflexivity.
Defined.

(** X17. When the prompt is used, nothing of the flags reaches the request:
    with no message on the command line, the set command is the same
    program for any two settings of the flags, whatever the prompt answers.
    The message, the emoji, the availability and the expiry all come from
    the answers, and the organisation, which the prompt keeps, is not read
    by [runSet]. *)
Theorem setCmd_prompt_overrides_flags (em : emojiManager) (Emojis : list emoji)
    (ParseDuration : string -> Z * option error)
    (opts1 opts2 : setOptions) (args : list string) (reply : answers + error) :
  hd (setOptions_Message opts1) args = "" ->
  hd (setOptions_Message opts2) args = "" ->
  setCmd_RunE em Emojis ParseDuration opts1 args reply
  = setCmd_RunE em Emojis ParseDuration opts2 args reply.
Proof.
  intros H1 H2. unfold setCmd_RunE.
  destruct args as [|arg rest]; cbn [hd] in H1, H2; cbn [setOptions_Message];
    rewrite ?H1, ?H2; cbn [String.eqb];
    (destruct reply as [ans|e]; [|reflexivity]);
    unfold prompt; destruct (ParseDuration _) as [d perr];
    destruct (answers_Emoji ans <? 0); try reflexivity;
    destruct (Emojis !! Z.to_nat (answers_Emoji ans)) as [e|]; try reflexivity;
    destruct (emoji_names e) as [|name names]; try reflexivity;
    cbn [mbind M_bind bind mret M_ret setOptions_OrgName];
    rewrite <- (runSet_ignores_OrgName em (mkSetOptions _ _ _ _ (setOptions_OrgName opts1))
                  (setOptions_OrgName opts2));
    reflexivity.
Qed.

Lemma setCmd_prompt_overrides_flags_witness :
  setCmd_RunE plain_emojiManager sample_Emojis sample_ParseDuration setCmd_flags []
    (inl prompt_answers)
  = setCmd_RunE plain_emojiManager sample_Emojis sample_ParseDuration
      (mkSetOptions "" true 60000000000 "rocket" "github") [] (inl prompt_answers).
Proof.
  apply (setCmd_prompt_overrides_flags plain_emojiManager sample_Emojis sample_ParseDuration
           setCmd_flags (mkSetOptions "" true 60000000000 "rocket" "github") []
           (inl prompt_answers)); reflexivity.
Defined.

(** X18. A choice outside the emoji table panics before anything is sent:
    with no message on the command line and answers whose emoji index is
    negative or not below the length of the table, the set command panics
    on the indexing and produces no event. *)
Theorem setCmd_emoji_out_of_range (em : emojiManager) (Emojis : list emoji)
    (ParseDuration : string -> Z * option error) (w : World)
    (opts : setOptions) (args : list string) (ans : answers) :
  hd (setOptions_Message opts) args = "" ->
  answers_Emoji ans < 0 \/ Z.of_nat (List.length Emojis) <= answers_Emoji ans ->
  run w (setCmd_RunE em Emojis ParseDuration opts args (inl ans))
  = (Panicked "index out of range", []).
Proof.
  intros Hmsg Hrange. unfold setCmd_RunE.
  destruct args as [|arg rest]; cbn [hd] in Hmsg; cbn [setOptions_Message];
    rewrite Hmsg; cbn [String.eqb];
    unfold prompt; destruct (ParseDuration _) as [d perr];
    (destruct (Z.ltb_spec (answers_Emoji ans) 0) as [Hneg|Hpos]; [reflexivity|]);
    (destruct Hrange as [Hrange|Hrange]; [lia|]);
    rewrite (proj2 (lookup_ge_None Emojis (Z.to_nat (answers_Emoji ans)))) by lia;
    reflexivity.
Qed.

Lemma setCmd_emoji_out_of_range_witness :
  run (world_answering "")
    (setCmd_RunE plain_emojiManager sample_Emojis sample_ParseDuration setCmd_flags []
       (inl (mkAnswers "in a meeting" 147 false "Never")))
  = (Panicked "index out of range", []).
Proof.
  apply (setCmd_emoji_out_of_range plain_emojiManager sample_Emojis sample_ParseDuration
           (world_answering "") setCmd_flags [] (mkAnswers "in a meeting" 147 false "Never")).
  - reflexivity.
  - right. cbn. lia.
Defined.

(** X19. What the prompt sends.  With no message on the command line and
    answers that choose an entry of the emoji table with a name, every
    request of the set command carries the status of the answers as the
    message, the first name of the chosen entry as the emoji, the answer on
    availability, and the expiry read by [time.ParseDuration] from the
    chosen text, [Never] read as [0s] and [7d] as [168h]: the time of
    expiry when that duration is positive, [null] when it is not.  The
    error of [time.ParseDuration] is not looked at, and when the duration
    is not positive the clock is not read. *)
Theorem setCmd_prompt_request (em : emojiManager) (Emojis : list emoji)
    (ParseDuration : string -> Z * option error) (w : World)
    (opts : setOptions) (args : list string) (ans : answers)
    (e : emoji) (alias : string) (aliases : list string) :
  hd (setOptions_Message opts) args = "" ->
  0 <= answers_Emoji ans ->
  Emojis !! Z.to_nat (answers_Emoji ans) = Some e ->
  emoji_names e = alias :: aliases ->
  let d := (ParseDuration (expiry_text (answers_Expiry ans))).1 in
  let sent := mkSetOptions (answers_Status ans) (answers_Limited ans) d alias
                (setOptions_OrgName opts) in
  let tr := (run w (setCmd_RunE em Emojis ParseDuration opts args (inl ans))).2 in
  (forall name args' out eout err,
     In (EvRun name args' out eout err) tr ->
     args' = cmdArgs sent
               (if 0 <? d
                then Time_Format_2006_01_02T15_04_05_0700 (Time_Add (world_Now w []) d)
                else "null"))
  /\ (d <= 0 -> List.filter is_Now tr = []).
Proof.
  intros Hmsg Hpos Hlook Hnames. cbv zeta.
  assert (Heq : setCmd_RunE em Emojis ParseDuration opts args (inl ans)
                = runSet em (mkSetOptions (answers_Status ans) (answers_Limited ans)
                               (ParseDuration (expiry_text (answers_Expiry ans))).1 alias
                               (setOptions_OrgName opts))).
  { unfold setCmd_RunE.
    destruct args as [|arg rest]; cbn [hd] in Hmsg; cbn [setOptions_Message];
      rewrite Hmsg; cbn [String.eqb]; unfold prompt; cbv zeta;
      rewrite expiry_text_eq;
      destruct (ParseDuration _) as [d perr];
      (destruct (Z.ltb_spec (answers_Emoji ans) 0) as [Hneg|_]; [lia|]);
      rewrite Hlook, Hnames; reflexivity. }
  rewrite Heq. split.
  - intros name args' out eout err H. apply runSet_args in H. exact H.
  - intros Hd. rewrite run_runSet. cbn [setOptions_Expiry].
    destruct (Z.ltb_spec 0 (ParseDuration (expiry_text (answers_Expiry ans))).1) as [Hlt|_];
      [lia|].
    unfold runSet_invoke, runSet_decode. run_program; reflexivity.
Qed.

Lemma setCmd_prompt_request_witness :
  ["api"; "graphql"; "-f"; "query=" ++ mutation; "-f"; "message=in a meeting";
   "-f"; "emoji=:palm_tree:"; "-F"; "limited=true"; "-F"; "expiry=2023-11-14T23:13:20+0000"]
  = cmdArgs (mkSetOptions "in a meeting" true 3600000000000 "palm_tree" "")
      (Time_Format_2006_01_02T15_04_05_0700
         (Time_Add (mkTime 1700000000 0 utc) 3600000000000)).
Proof.
  refine (proj1 (setCmd_prompt_request plain_emojiManager sample_Emojis sample_ParseDuration
                   (world_answering "") setCmd_flags [] prompt_answers
                   (mkEmoji "P" ["palm_tree"; "palm"] "palm tree") "palm_tree" ["palm"]
                   eq_refl _ eq_refl eq_refl)
            "/usr/bin/gh" _ "" "" None _).
  - cbn. lia.
  - vm_compute. right. right. left. reflexivity.
Defined.

(** X8. The get command calls the tool once, whatever its arguments: it
    reads the login from the first argument, an empty login when there is
    none, looks [gh] up once and starts at most one process, at the path
    just found; it asks nothing and does not read the clock.  It always
    returns: under the get command the indexing of the pieces of the login
    never panics. *)
Theorem getCmd_one_call (em : emojiManager)
    (U : string -> list memberStatus * option error) (w : World) (args : list string) :
  let res := (run w (getCmd_RunE em U args)).1 in
  let tr := (run w (getCmd_RunE em U args)).2 in
  getCmd_RunE em U args = runGet em U (mkGetOptions (hd "" args))
  /\ List.length (List.filter is_LookPath tr) = 1%nat
  /\ (List.length (processes tr) <= 1)%nat
  /\ List.filter is_RunInteractive tr = []
  /\ List.filter is_AskOne tr = []
  /\ List.filter is_Now tr = []
  /\ runs_resolved None tr = true
  /\ exists err, res = Returned err.
Proof.
  cbv zeta.
  assert (Heq : getCmd_RunE em U args = runGet em U (mkGetOptions (hd "" args))).
  { now destruct args. }
  split; [exact Heq|]. rewrite Heq. apply runGet_one_call.
Qed.

(** X14. The clear command sends the empty status and nothing else: every
    request it makes has an empty message, an empty emoji, no limited
    availability and no expiry; it does not read the clock, and the only
    lines it can print are the note on the missing scope and the line of
    success with nothing after it. *)
Theorem clearCmd_request (em : emojiManager) (w : World) :
  let tr := (run w (clearCmd_RunE em)).2 in
  List.filter is_Now tr = []
  /\ (forall name args out eout err,
        In (EvRun name args out eout err) tr ->
        args = ["api"; "graphql"; "-f"; "query=" ++ mutation; "-f"; "message=";
                "-f"; "emoji="; "-F"; "limited=false"; "-F"; "expiry=null"])
  /\ (forall line,
        In line (printed tr) ->
        line = sorry_line \/ line = ReplaceAll em ("✓ Status set to  ")).
Proof.
  cbv zeta. split; [|split].
  - unfold clearCmd_RunE. rewrite run_runSet. cbn [clearCmd_opts setOptions_Expiry Z.ltb Z.compare].
    unfold runSet_invoke, runSet_decode. run_program; reflexivity.
  - intros name args out eout err H. unfold clearCmd_RunE in H.
    apply runSet_args in H. exact H.
  - unfold clearCmd_RunE. rewrite run_runSet. cbn [clearCmd_opts setOptions_Expiry Z.ltb Z.compare].
    unfold runSet_invoke, runSet_decode. run_program; cbn; intros line H;
      repeat match type of H with
             | _ \/ _ => destruct H as [H|H]
             | False => destruct H
             | _ = _ => subst line
             end; auto.
Qed.

Lemma clearCmd_request_witness :
  ["api"; "graphql"; "-f"; "query=" ++ mutation; "-f"; "message=";
   "-f"; "emoji="; "-F"; "limited=false"; "-F"; "expiry=null"]
  = ["api"; "graphql"; "-f"; "query=" ++ mutation; "-f"; "message=";
     "-f"; "emoji="; "-F"; "limited=false"; "-F"; "expiry=null"]
  /\ (ReplaceAll plain_emojiManager "✓ Status set to  " = sorry_line
      \/ ReplaceAll plain_emojiManager "✓ Status set to  "
         = ReplaceAll plain_emojiManager "✓ Status set to  ").
Proof.
  destruct (clearCmd_request plain_emojiManager
              (world_answering (json_text "{'data':{'changeUserStatus':{'status':null}}}")))
    as (_ & Hargs & Hlines).
  split.
  - refine (Hargs "/usr/bin/gh" _ (json_text "{'data':{'changeUserStatus':{'status':null}}}")
              "" None _).
    vm_compute. right. left. reflexivity.
  - apply Hlines. vm_compute. left. reflexivity.
Defined.
